(** * gsplat: the Python bindings of the 3D gaussian projection

    A shallow embedding of [gsplat/project_gaussians.py]: the two public
    entry points [project_gaussians] and [project_gaussians_given_cov3d],
    the helper [pack_cov3d_triu] and the autograd function
    [_ProjectGaussians] (its [forward] and [backward]).

    Conventions of the embedding.
    - A torch tensor is its shape, its row-major contents and its
      [requires_grad] flag.  Floating-point scalars are idealised as real
      numbers; integer tensors hold integral reals.
    - Python exceptions are values of [exn]; a computation is a pair of the
      trace of the calls it made into compiled code and either the
      exception it raised or its result.
    - The compiled extension [gsplat.cuda] and the helper module
      [gsplat._torch_impl] are not part of the file that is embedded; they
      are the fields of the class [Backend]. *)

From Stdlib Require Import List ZArith Reals Lra Lia Bool String.
Import ListNotations.
Open Scope R_scope.

(** ** Tensors *)

Record Tensor : Type := mkTensor {
  shape : list nat;
  data : list R;
  requires_grad : bool
}.

(** Number of elements that a shape describes. *)
Definition numel (s : list nat) : nat := fold_right Nat.mul 1%nat s.

(** A tensor is well formed when it stores one scalar per position. *)
Definition wf_tensor (t : Tensor) : Prop :=
  List.length (data t) = numel (shape t).

(** [t.contiguous()] changes the memory layout only. *)
Definition contiguous (t : Tensor) : Tensor := t.

(** [torch.zeros_like(t)]: a fresh tensor, hence not tracked by autograd. *)
Definition zeros_like (t : Tensor) : Tensor :=
  mkTensor (shape t) (repeat 0 (List.length (data t))) false.

(** ** Exceptions and computations *)

Inductive exn : Type :=
| AssertionError (msg : string)
| ValueError (msg : string) (offending : list nat)
| IndexError (msg : string)
| RuntimeError (msg : string).

(** The specification's [InvalidInput] is what the bindings raise
    themselves: the [AssertionError] of a failed [assert] and the
    [ValueError] of the shape check. *)

(** Calls that leave the Python layer, with their arguments. *)
Inductive event : Type :=
| EvScaleRotToCov3d (scales : Tensor) (glob_scale : R) (quats : Tensor)
| EvProjectForward (num_points : nat) (means3d cov3d_triu viewmat : Tensor)
    (fx fy cx cy : R) (img_height img_width block_width : Z)
    (clip_thresh : R)
| EvProjectBackward (num_points : nat) (means3d cov3d_triu viewmat : Tensor)
    (fx fy cx cy : R) (img_height img_width : Z)
    (radii conics compensation : Tensor)
    (v_xys v_depths v_conics v_compensation : Tensor).

Definition trace : Type := list event.

Definition Py (A : Type) : Type := (trace * (exn + A))%type.

Definition ret {A} (a : A) : Py A := ([], inr a).

Definition raise {A} (e : exn) : Py A := ([], inl e).

Definition emit (ev : event) : Py unit := ([ev], inr tt).

Definition bind {A B} (m : Py A) (k : A -> Py B) : Py B :=
  match m with
  | (tr, inl e) => (tr, inl e)
  | (tr, inr a) => let (tr', r) := k a in (tr ++ tr', r)
  end.

Notation "x <- m ;; k" := (bind m (fun x => k))
  (at level 61, m at next level, right associativity).
Notation "m ;;; k" := (bind m (fun _ => k))
  (at level 61, right associativity).

(** [assert c, msg] *)
Definition py_assert (c : bool) (msg : string) : Py unit :=
  if c then ret tt else raise (AssertionError msg).

Definition calls {A} (m : Py A) : trace := fst m.
Definition outcome {A} (m : Py A) : exn + A := snd m.

(** ** Tensor operations used by the bindings *)

Definition Rltb (x y : R) : bool := if Rlt_dec x y then true else false.

(** Split a shape into its leading (batch) part and its last dimension;
    a zero-dimensional tensor is treated as a single row of one element. *)
Definition split_last (s : list nat) : list nat * nat :=
  match rev s with
  | [] => ([], 1%nat)
  | c :: b => (rev b, c)
  end.

(** The [b]-th row of [width] consecutive scalars. *)
Definition row (width : nat) (d : list R) (b : nat) : list R :=
  firstn width (skipn (b * width) d).

Definition sum_squares (v : list R) : R :=
  fold_right (fun x acc => x * x + acc) 0 v.

(** [t.norm(dim=-1)] *)
Definition norm_last (t : Tensor) : Tensor :=
  let (batch, c) := split_last (shape t) in
  mkTensor batch
    (map (fun b => sqrt (sum_squares (row c (data t) b))) (seq 0 (numel batch)))
    (requires_grad t).

(** [(quats.norm(dim=-1) - 1 < 1e-6).all()], over exact reals: the
    rounding of a float32 norm next to the bound and the dtypes on which
    [norm] is undefined are outside this idealisation. *)
Definition quats_normalized (quats : Tensor) : bool :=
  forallb (fun n => Rltb (n - 1) (1 / 1000000)) (data (norm_last quats)).

(** [t[..., i, j]]: select entry [(i, j)] of every trailing matrix. *)
Definition select_last2 (t : Tensor) (i j : nat) : Py Tensor :=
  match rev (shape t) with
  | c :: r :: batch_rev =>
      if (i <? r)%nat && (j <? c)%nat then
        ret (mkTensor (rev batch_rev)
               (map (fun b => nth (b * (r * c) + i * c + j) (data t) 0)
                    (seq 0 (numel (rev batch_rev))))
               (requires_grad t))
      else raise (IndexError "index out of bounds")
  | _ => raise (IndexError "too many indices for tensor")
  end.

Definition shape_eqb (s1 s2 : list nat) : bool :=
  if list_eq_dec Nat.eq_dec s1 s2 then true else false.

(** [torch.stack(ts, dim=-1)]: the tensors must have one shape. *)
Definition stack_last (ts : list Tensor) : Py Tensor :=
  match ts with
  | [] => raise (RuntimeError "stack expects a non-empty TensorList")
  | t0 :: _ =>
      if forallb (fun t => shape_eqb (shape t) (shape t0)) ts then
        ret (mkTensor (shape t0 ++ [List.length ts])
               (flat_map (fun b => map (fun t => nth b (data t) 0) ts)
                         (seq 0 (numel (shape t0))))
               (existsb requires_grad ts))
      else raise (RuntimeError "stack expects each tensor to be equal size")
  end.

(** [t[..., :3, :3]]: slicing never fails on the extent, only on the rank. *)
Definition slice_3x3 (t : Tensor) : Py Tensor :=
  match rev (shape t) with
  | c :: r :: batch_rev =>
      let r' := Nat.min 3 r in
      let c' := Nat.min 3 c in
      ret (mkTensor (rev batch_rev ++ [r'; c'])
             (flat_map (fun b =>
                flat_map (fun i =>
                  map (fun j => nth (b * (r * c) + i * c + j) (data t) 0)
                      (seq 0 c'))
                  (seq 0 r'))
                (seq 0 (numel (rev batch_rev))))
             (requires_grad t))
  | _ => raise (IndexError "too many indices for tensor")
  end.

(** ** [pack_cov3d_triu] *)

Definition pack_cov3d_triu (cov3d : Tensor) : Py Tensor :=
  cov_xx <- select_last2 cov3d 0 0 ;;
  cov_xy <- select_last2 cov3d 0 1 ;;
  cov_xz <- select_last2 cov3d 0 2 ;;
  cov_yy <- select_last2 cov3d 1 1 ;;
  cov_yz <- select_last2 cov3d 1 2 ;;
  cov_zz <- select_last2 cov3d 2 2 ;;
  stack_last [cov_xx; cov_xy; cov_xz; cov_yy; cov_yz; cov_zz].

(** [s[i]] on a [torch.Size], with Python's negative indices. *)
Definition shape_index (s : list nat) (i : Z) : Py nat :=
  let len := Z.of_nat (List.length s) in
  let idx := if (i <? 0)%Z then (i + len)%Z else i in
  if (0 <=? idx)%Z && (idx <? len)%Z then
    match nth_error s (Z.to_nat idx) with
    | Some d => ret d
    | None => raise (IndexError "tuple index out of range")
    end
  else raise (IndexError "tuple index out of range").

(** ** The compiled code behind the bindings *)

(** The six outputs of the projection, in the order of the source:
    [(xys, depths, radii, conics, compensation, num_tiles_hit)]. *)
Definition Projection : Type :=
  (Tensor * Tensor * Tensor * Tensor * Tensor * Tensor)%type.

(** [gsplat._torch_impl.scale_rot_to_cov3d] and the two functions of
    [gsplat.cuda] that the bindings call. *)
Class Backend : Type := {
  scale_rot_to_cov3d : Tensor -> R -> Tensor -> Tensor;
  project_gaussians_forward :
    nat -> Tensor -> Tensor -> Tensor -> R -> R -> R -> R -> Z -> Z -> Z -> R ->
    Projection;
  project_gaussians_backward :
    nat -> Tensor -> Tensor -> Tensor -> R -> R -> R -> R -> Z -> Z ->
    Tensor -> Tensor -> Tensor -> Tensor -> Tensor -> Tensor -> Tensor ->
    Tensor * Tensor * Tensor
}.

(** ** The autograd function [_ProjectGaussians] *)

(** What [forward] leaves on the autograd context. *)
Record Ctx : Type := mkCtx {
  ctx_img_height : Z;
  ctx_img_width : Z;
  ctx_num_points : nat;
  ctx_fx : R;
  ctx_fy : R;
  ctx_cx : R;
  ctx_cy : R;
  saved_tensors : Tensor * Tensor * Tensor * Tensor * Tensor * Tensor
}.

(** The view matrix among the saved tensors. *)
Definition saved_viewmat (ctx : Ctx) : Tensor :=
  let '(_, viewmat, _, _, _, _) := saved_tensors ctx in viewmat.

(** One gradient slot per input of [forward]; [None] is Python's [None]. *)
Definition Gradients : Type :=
  (option Tensor * option Tensor * option Tensor *
   option Tensor * option Tensor * option Tensor * option Tensor *
   option Tensor * option Tensor * option Tensor * option Tensor)%type.

Module _ProjectGaussians.
Section WithBackend.
Context `{Backend}.

Definition forward (means3d cov3d_triu viewmat : Tensor)
      (fx fy cx cy : R) (img_height img_width block_width : Z)
      (clip_thresh : R) : Py (Ctx * Projection) :=
    num_points <- shape_index (shape means3d) (-2) ;;
    invalid <- (if (num_points <? 1)%nat then ret true
                else last_dim <- shape_index (shape means3d) (-1) ;;
                     ret (negb (last_dim =? 3)%nat)) ;;
    if invalid : bool then
      raise (ValueError "Invalid shape for means3d: " (shape means3d))
    else
      emit (EvProjectForward num_points means3d cov3d_triu viewmat
              fx fy cx cy img_height img_width block_width clip_thresh) ;;;
      let '(xys, depths, radii, conics, compensation, num_tiles_hit) :=
        project_gaussians_forward num_points means3d cov3d_triu viewmat
          fx fy cx cy img_height img_width block_width clip_thresh in
      let ctx := {| ctx_img_height := img_height;
                    ctx_img_width := img_width;
                    ctx_num_points := num_points;
                    ctx_fx := fx; ctx_fy := fy; ctx_cx := cx; ctx_cy := cy;
                    saved_tensors := (means3d, viewmat, cov3d_triu,
                                      radii, conics, compensation) |} in
      ret (ctx, (xys, depths, radii, conics, compensation, num_tiles_hit)).

  (** The source elides the rest of the view-matrix gradient; what is
      written is the zero tensor and the (unused) rotation block. *)
Definition backward (ctx : Ctx) (v_xys v_depths : Tensor)
      (v_radii : option Tensor) (v_conics v_compensation : Tensor)
      (v_num_tiles_hit : option Tensor) : Py Gradients :=
    let '(means3d, viewmat, cov3d_triu, radii, conics, compensation) :=
      saved_tensors ctx in
    emit (EvProjectBackward (ctx_num_points ctx) means3d cov3d_triu viewmat
            (ctx_fx ctx) (ctx_fy ctx) (ctx_cx ctx) (ctx_cy ctx)
            (ctx_img_height ctx) (ctx_img_width ctx)
            radii conics compensation
            v_xys v_depths v_conics v_compensation) ;;;
    let '(v_cov2d, v_cov3d, v_mean3d) :=
      project_gaussians_backward (ctx_num_points ctx) means3d cov3d_triu
        viewmat (ctx_fx ctx) (ctx_fy ctx) (ctx_cx ctx) (ctx_cy ctx)
        (ctx_img_height ctx) (ctx_img_width ctx)
        radii conics compensation
        v_xys v_depths v_conics v_compensation in
    v_viewmat <- (if requires_grad viewmat then
                    let v_viewmat := zeros_like viewmat in
                    R_ <- slice_3x3 viewmat ;;
                    ret (Some v_viewmat)
                  else ret None) ;;
    ret (Some v_mean3d, Some v_cov3d, v_viewmat,
         None, None, None, None, None, None, None, None).

  (** [_ProjectGaussians.apply]: autograd runs [forward] and keeps the
      context for the reverse pass; the caller sees the outputs. *)
Definition apply (means3d cov3d_triu viewmat : Tensor)
      (fx fy cx cy : R) (img_height img_width block_width : Z)
      (clip_thresh : R) : Py Projection :=
    r <- forward means3d cov3d_triu viewmat fx fy cx cy
           img_height img_width block_width clip_thresh ;;
    ret (snd r).

End WithBackend.
End _ProjectGaussians.

(** ** The public entry points *)

Section EntryPoints.
Context `{Backend}.

Definition project_gaussians_given_cov3d (means3d cov3d viewmat : Tensor)
      (fx fy cx cy : R) (img_height img_width block_width : Z)
      (clip_thresh : R)
    : Py (Tensor * Tensor * Tensor * Tensor * Tensor * Tensor * Tensor) :=
    cov3d_triu <- pack_cov3d_triu cov3d ;;
    out <- _ProjectGaussians.apply (contiguous means3d) cov3d_triu
             (contiguous viewmat) fx fy cx cy img_height img_width
             block_width clip_thresh ;;
    let '(xys, depths, radii, conics, comp, num_tiles_hit) := out in
    ret (xys, depths, radii, conics, comp, num_tiles_hit, cov3d).

Definition project_gaussians (means3d scales : Tensor) (glob_scale : R)
      (quats viewmat : Tensor) (fx fy cx cy : R)
      (img_height img_width block_width : Z) (clip_thresh : R)
    : Py (Tensor * Tensor * Tensor * Tensor * Tensor * Tensor * Tensor) :=
    py_assert ((1 <? block_width)%Z && (block_width <=? 16)%Z)
      "block_width must be between 2 and 16" ;;;
    py_assert (quats_normalized quats) "quats must be normalized" ;;;
    emit (EvScaleRotToCov3d scales glob_scale quats) ;;;
    let cov3d := scale_rot_to_cov3d scales glob_scale quats in
    project_gaussians_given_cov3d means3d cov3d viewmat fx fy cx cy
      img_height img_width block_width clip_thresh.

End EntryPoints.

(** ** Reconstruction of the full covariance *)

(** The inverse of the packing, as the round-trip property of the
    specification words it: rebuild every symmetric 3x3 matrix from its six
    packed entries (xx, xy, xz, yy, yz, zz).  The source has no such
    function; this one is the other side of the comparison. *)
Definition unpack_cov3d_triu (packed : Tensor) : Tensor :=
  let (batch, c) := split_last (shape packed) in
  mkTensor (batch ++ [3; 3]%nat)
    (flat_map (fun b =>
       let e k := nth (b * c + k) (data packed) 0 in
       [e 0; e 1; e 2;
        e 1; e 3; e 4;
        e 2; e 4; e 5]%nat)
       (seq 0 (numel batch)))
    (requires_grad packed).

(** Entry [(i, j)] of the [b]-th trailing 3x3 matrix. *)
Definition entry33 (t : Tensor) (b i j : nat) : R :=
  nth (b * 9 + i * 3 + j) (data t) 0.

Definition symmetric33 (t : Tensor) : Prop :=
  forall b i j, (i < 3)%nat -> (j < 3)%nat ->
    entry33 t b i j = entry33 t b j i.

(** Two batches of 3x3 matrices with the same upper triangles. *)
Definition same_upper33 (t t' : Tensor) : Prop :=
  forall b i j, (i <= j)%nat -> (j < 3)%nat ->
    entry33 t b i j = entry33 t' b i j.

(** The projection outputs of an entry point's 7-tuple (all but [cov3d]). *)
Definition projection_of
    (r : Tensor * Tensor * Tensor * Tensor * Tensor * Tensor * Tensor)
  : Projection :=
  let '(xys, depths, radii, conics, comp, num_tiles_hit, _) := r in
  (xys, depths, radii, conics, comp, num_tiles_hit).

Definition map_outcome {A B} (f : A -> B) (r : exn + A) : exn + B :=
  match r with
  | inl e => inl e
  | inr a => inr (f a)
  end.

(** ** The forward kernel, as the specification describes it *)

(** One projected primitive (section 3 of the specification). *)
Record Projected2D : Type := mkProjected2D {
  p_xy : R * R;
  p_depth : R;
  p_radius : Z;
  p_conic : R * R * R;
  p_compensation : R;
  p_num_tiles_hit : Z
}.

Module SpecKernel.
Section Stages.

  (** The covariance projector and the tile/radius estimator (sections 4.3
      and 4.4), which the specification leaves open to several formulas:
      from the packed covariance, the camera-space position, the pixel
      position and the camera they give (conic, compensation, radius,
      num_tiles_hit). *)
Variable ewa_and_tiles :
    list R -> R * R * R -> R * R -> Tensor -> R -> R -> R -> R -> Z -> Z -> Z ->
    (R * R * R) * R * Z * Z.

  (** What a culled primitive carries in its conic and compensation slots. *)
Variable culled_conic : R * R * R.
Variable culled_compensation : R.

  (** Modelled from the spec: the view transform of section 4.2 (the kernel
      of [gsplat.cuda] is missing); the position as a homogeneous point
      through the row-major 4x4 view matrix. *)
Definition camera_space (viewmat : Tensor) (p : list R) : R * R * R :=
    let v k := nth k (data viewmat) 0 in
    let x := nth 0 p 0 in
    let y := nth 1 p 0 in
    let z := nth 2 p 0 in
    (v 0%nat * x + v 1%nat * y + v 2%nat * z + v 3%nat,
     v 4%nat * x + v 5%nat * y + v 6%nat * z + v 7%nat,
     v 8%nat * x + v 9%nat * y + v 10%nat * z + v 11%nat).

  (** Modelled from the spec: the pinhole model of section 4.2,
      px = fx*x/z + cx and py = fy*y/z + cy. *)
Definition pinhole (fx fy cx cy : R) (c : R * R * R) : R * R :=
    let '(x, y, z) := c in
    (fx * x / z + cx, fy * y / z + cy).

  (** Modelled from the spec: the perspective projector of section 4.2 for
      one primitive (the per-primitive body of the missing kernel
      [project_gaussians_forward]).  A depth below [clip_thresh] marks the
      primitive invisible: radius 0, num_tiles_hit 0, xy and depth still
      filled in. *)
Definition project_primitive (mean cov : list R) (viewmat : Tensor)
      (fx fy cx cy : R) (img_height img_width block_width : Z)
      (clip_thresh : R) : Projected2D :=
    let c := camera_space viewmat mean in
    let depth := snd c in
    let xy := pinhole fx fy cx cy c in
    if Rltb depth clip_thresh then
      mkProjected2D xy depth 0 culled_conic culled_compensation 0
    else
      let '(conic, comp, radius, tiles) :=
        ewa_and_tiles cov c xy viewmat fx fy cx cy
          img_height img_width block_width in
      mkProjected2D xy depth radius conic comp tiles.

  (** Modelled from the spec: the missing [project_gaussians_forward] of
      [gsplat.cuda], a data-parallel map of [project_primitive] over the
      [num_points] rows of [means3d] and [cov3d_triu] (sections 5 and 6),
      with one output slot per primitive. *)
Definition forward_kernel (num_points : nat)
      (means3d cov3d_triu viewmat : Tensor) (fx fy cx cy : R)
      (img_height img_width block_width : Z) (clip_thresh : R)
    : Projection :=
    let ps :=
      map (fun i =>
             project_primitive (row 3 (data means3d) i)
               (row 6 (data cov3d_triu) i) viewmat fx fy cx cy
               img_height img_width block_width clip_thresh)
          (seq 0 num_points) in
    (mkTensor [num_points; 2%nat]
       (flat_map (fun p => [fst (p_xy p); snd (p_xy p)]) ps) false,
     mkTensor [num_points] (map p_depth ps) false,
     mkTensor [num_points] (map (fun p => IZR (p_radius p)) ps) false,
     mkTensor [num_points; 3%nat]
       (flat_map (fun p => let '(a, b, c) := p_conic p in [a; b; c]) ps) false,
     mkTensor [num_points] (map p_compensation ps) false,
     mkTensor [num_points] (map (fun p => IZR (p_num_tiles_hit p)) ps) false).

  (** The covariance builder and the reverse kernel stay abstract. *)
Variable builder : Tensor -> R -> Tensor -> Tensor.
Variable adjoint :
    nat -> Tensor -> Tensor -> Tensor -> R -> R -> R -> R -> Z -> Z ->
    Tensor -> Tensor -> Tensor -> Tensor -> Tensor -> Tensor -> Tensor ->
    Tensor * Tensor * Tensor.

Definition backend : Backend :=
    {| scale_rot_to_cov3d := builder;
       project_gaussians_forward := forward_kernel;
       project_gaussians_backward := adjoint |}.

End Stages.
End SpecKernel.

(** ** Concrete inputs and a concrete backend for the examples *)

Module Examples.

  (** A covariance builder for unrotated gaussians: the diagonal matrix of
      the squared, globally scaled scales. *)
Definition axis_aligned_builder (scales : Tensor) (glob_scale : R)
      (quats : Tensor) : Tensor :=
    let (batch, c) := split_last (shape scales) in
    mkTensor (batch ++ [3; 3]%nat)
      (flat_map (fun b =>
         let s k := glob_scale * nth (b * c + k) (data scales) 0 in
         [s 0%nat * s 0%nat; 0; 0;
          0; s 1%nat * s 1%nat; 0;
          0; 0; s 2%nat * s 2%nat])
         (seq 0 (numel batch)))
      (requires_grad scales || requires_grad quats).

  (** A one-pixel isotropic splat that covers one tile. *)
Definition unit_splat (cov : list R) (c : R * R * R) (xy : R * R)
      (viewmat : Tensor) (fx fy cx cy : R)
      (img_height img_width block_width : Z) : (R * R * R) * R * Z * Z :=
    ((1, 0, 1), 1, 1%Z, 1%Z).

Definition zero_adjoint (num_points : nat)
      (means3d cov3d_triu viewmat : Tensor) (fx fy cx cy : R)
      (img_height img_width : Z) (radii conics compensation : Tensor)
      (v_xys v_depths v_conics v_compensation : Tensor)
    : Tensor * Tensor * Tensor :=
    (zeros_like conics, zeros_like cov3d_triu, zeros_like means3d).

Definition backend : Backend :=
    SpecKernel.backend unit_splat (0, 0, 0) 0 axis_aligned_builder
      zero_adjoint.

Definition eye4 (rg : bool) : Tensor :=
    mkTensor [4; 4]%nat
      [1; 0; 0; 0;
       0; 1; 0; 0;
       0; 0; 1; 0;
       0; 0; 0; 1] rg.

  (** One gaussian at depth 1 in front of the camera. *)
Definition one_mean : Tensor := mkTensor [1; 3]%nat [0; 0; 1] false.

  (** Two gaussians: one in front of the camera, one behind it. *)
Definition two_means : Tensor :=
    mkTensor [2; 3]%nat [0; 0; 1; 0; 0; -1] false.

Definition no_means : Tensor := mkTensor [0; 3]%nat [] false.

(** Five scalars in a row: one dimension only, and a last dimension
      that is not 3. *)
Definition rank1_means : Tensor :=
    mkTensor [5]%nat [0; 0; 1; 0; 0] false.

Definition one_scale : Tensor := mkTensor [1; 3]%nat [1; 1; 1] false.

Definition unit_quat : Tensor := mkTensor [1; 4]%nat [1; 0; 0; 0] false.

  (** A quaternion of norm 1/2. *)
Definition half_quat : Tensor :=
    mkTensor [1; 4]%nat [1 / 2; 0; 0; 0] false.

  (** A quaternion of norm 2. *)
Definition double_quat : Tensor :=
    mkTensor [1; 4]%nat [2; 0; 0; 0] false.

Definition one_cov (lower : R) : Tensor :=
    mkTensor [1; 3; 3]%nat
      [1; 2; 3;
       lower; 4; 5;
       lower; lower; 6] false.

Definition sym_cov : Tensor :=
    mkTensor [3; 3]%nat
      [1; 2; 3;
       2; 4; 5;
       3; 5; 6] false.

Definition one_packed : Tensor :=
    mkTensor [1; 6]%nat [1; 0; 0; 1; 0; 1] false.

(** Two symmetric covariances in one batch. *)
Definition sym_batch : Tensor :=
    mkTensor [2; 3; 3]%nat
      [1; 2; 3;
       2; 4; 5;
       3; 5; 6;
       7; 0; 0;
       0; 8; 0;
       0; 0; 9] false.

Definition two_packed : Tensor :=
    mkTensor [2; 6]%nat [1; 0; 0; 1; 0; 1; 1; 0; 0; 1; 0; 1] false.

(** A view matrix handed over as 16 scalars in a row, tracked by
      autograd. *)
Definition flat_view : Tensor :=
    mkTensor [16]%nat
      [1; 0; 0; 0;
       0; 1; 0; 0;
       0; 0; 1; 0;
       0; 0; 0; 1] true.

Definition example_ctx (rg : bool) : Ctx :=
    {| ctx_img_height := 32; ctx_img_width := 32; ctx_num_points := 1;
       ctx_fx := 1; ctx_fy := 1; ctx_cx := 16; ctx_cy := 16;
       saved_tensors := (one_mean, eye4 rg, one_packed,
                         mkTensor [1]%nat [1] false,
                         mkTensor [1; 3]%nat [1; 0; 1] false,
                         mkTensor [1]%nat [1] false) |}.

End Examples.

(** * Properties *)

(** ** The computation monad *)

Lemma bind_ret_l {A B} (a : A) (k : A -> Py B) :
  bind (ret a) k = k a.
Proof. unfold bind, ret. destruct (k a). reflexivity. Qed.

Lemma bind_raise {A B} (e : exn) (k : A -> Py B) :
  bind (raise e) k = raise e.
Proof. reflexivity. Qed.

Lemma bind_emit {B} (ev : event) (k : unit -> Py B) :
  bind (emit ev) k = (ev :: calls (k tt), outcome (k tt)).
Proof. unfold bind, emit, calls, outcome. destruct (k tt). reflexivity. Qed.

Lemma py_assert_true (msg : string) : py_assert true msg = ret tt.
Proof. reflexivity. Qed.

Lemma py_assert_false (msg : string) :
  py_assert false msg = raise (AssertionError msg).
Proof. reflexivity. Qed.

Lemma Py_eta {A} (m : Py A) : m = (calls m, outcome m).
Proof. destruct m; reflexivity. Qed.

(** ** Real comparisons *)

Lemma Rltb_true (x y : R) : Rltb x y = true <-> x < y.
Proof.
  unfold Rltb. destruct (Rlt_dec x y); split; intros; try assumption;
    try reflexivity; try discriminate; contradiction.
Qed.

Lemma Rltb_false (x y : R) : Rltb x y = false <-> y <= x.
Proof.
  unfold Rltb. destruct (Rlt_dec x y); split; intros; try reflexivity;
    try discriminate; lra.
Qed.

(** ** Shapes and indexing *)

Lemma shape_eqb_refl (s : list nat) : shape_eqb s s = true.
Proof. unfold shape_eqb. destruct (list_eq_dec Nat.eq_dec s s); congruence. Qed.

Lemma nth_map_seq (f : nat -> R) (n b : nat) :
  (b < n)%nat -> nth b (map f (seq 0 n)) 0 = f b.
Proof.
  intros Hb.
  rewrite (nth_indep _ 0 (f 0%nat)) by (rewrite length_map, length_seq; exact Hb).
  rewrite map_nth, seq_nth by exact Hb. reflexivity.
Qed.

Lemma flat_map_ext_seq {B} (f g : nat -> list B) (n : nat) :
  (forall b, (b < n)%nat -> f b = g b) ->
  flat_map f (seq 0 n) = flat_map g (seq 0 n).
Proof.
  intros Hfg. rewrite !flat_map_concat_map. f_equal.
  apply map_ext_in. intros b Hb. apply in_seq in Hb. apply Hfg. lia.
Qed.

(** ** [pack_cov3d_triu] on a batch of 3x3 matrices *)

Lemma pack_cov3d_triu_batch (cov3d : Tensor) (batch : list nat) :
  shape cov3d = batch ++ [3; 3]%nat ->
  pack_cov3d_triu cov3d =
  ret (mkTensor (batch ++ [6]%nat)
         (flat_map (fun b =>
            [entry33 cov3d b 0 0; entry33 cov3d b 0 1; entry33 cov3d b 0 2;
             entry33 cov3d b 1 1; entry33 cov3d b 1 2; entry33 cov3d b 2 2])
            (seq 0 (numel batch)))
         (requires_grad cov3d)).
Proof.
  intros Hs. unfold pack_cov3d_triu, select_last2.
  rewrite Hs, rev_app_distr. cbn [rev app Nat.ltb Nat.leb andb].
  rewrite rev_involutive, !bind_ret_l.
  unfold stack_last. cbn [forallb shape andb].
  rewrite shape_eqb_refl. cbn [andb List.length data requires_grad existsb].
  f_equal. f_equal.
  - apply flat_map_ext_seq. intros b Hb. cbn [map data].
    rewrite !nth_map_seq by exact Hb. unfold entry33.
    repeat (f_equal; try lia).
  - destruct (requires_grad cov3d); reflexivity.
Qed.

(** A list of nine scalars, spelled out. *)
Lemma length9_inv (d : list R) :
  List.length d = 9%nat ->
  d = [nth 0 d 0; nth 1 d 0; nth 2 d 0;
       nth 3 d 0; nth 4 d 0; nth 5 d 0;
       nth 6 d 0; nth 7 d 0; nth 8 d 0].
Proof.
  intros Hlen.
  do 9 (destruct d as [| ? d]; [discriminate Hlen |]).
  destruct d; [reflexivity | discriminate Hlen].
Qed.

(** C6: for a symmetric 3x3 matrix M, [pack_cov3d_triu] returns exactly
    (M[0,0], M[0,1], M[0,2], M[1,1], M[1,2], M[2,2]) in that order, and
    rebuilding the symmetric matrix from these six values gives M back. *)
Theorem pack_cov3d_triu_roundtrip (M : Tensor) :
  shape M = [3; 3]%nat ->
  wf_tensor M ->
  symmetric33 M ->
  exists packed,
    pack_cov3d_triu M = ret packed /\
    shape packed = [6]%nat /\
    data packed =
      [entry33 M 0 0 0; entry33 M 0 0 1; entry33 M 0 0 2;
       entry33 M 0 1 1; entry33 M 0 1 2; entry33 M 0 2 2] /\
    unpack_cov3d_triu packed = M.
Proof.
  intros Hs Hwf Hsym.
  rewrite (pack_cov3d_triu_batch M [] Hs).
  eexists; split; [reflexivity |].
  split; [reflexivity |]. split; [reflexivity |].
  unfold wf_tensor in Hwf. rewrite Hs in Hwf. cbn in Hwf.
  pose proof (Hsym 0%nat 1%nat 0%nat ltac:(lia) ltac:(lia)) as H10.
  pose proof (Hsym 0%nat 2%nat 0%nat ltac:(lia) ltac:(lia)) as H20.
  pose proof (Hsym 0%nat 2%nat 1%nat ltac:(lia) ltac:(lia)) as H21.
  unfold entry33 in *. cbn [Nat.mul Nat.add] in *.
  destruct M as [s d rg]. cbn [shape data requires_grad] in *. subst s.
  unfold unpack_cov3d_triu, split_last.
  cbn [shape data requires_grad rev app numel fold_right seq flat_map
       Nat.mul Nat.add nth].
  f_equal. rewrite (length9_inv d Hwf) at 10.
  rewrite <- H10, <- H20, <- H21. reflexivity.
Qed.

Lemma pack_cov3d_triu_roundtrip_witness :
  exists packed,
    pack_cov3d_triu Examples.sym_cov = ret packed /\
    shape packed = [6]%nat /\
    data packed = [1; 2; 3; 4; 5; 6] /\
    unpack_cov3d_triu packed = Examples.sym_cov.
Proof.
  apply (pack_cov3d_triu_roundtrip Examples.sym_cov).
  - reflexivity.
  - reflexivity.
  - intros b i j Hi Hj. unfold entry33, Examples.sym_cov. cbn [data].
    destruct b as [| b].
    + destruct i as [| [| [| i]]]; try lia;
        destruct j as [| [| [| j]]]; try lia; reflexivity.
    + rewrite !nth_overflow by (cbn [List.length]; lia). reflexivity.
Defined.

(** Two batches with the same upper triangles pack to the same tensor. *)
Lemma pack_cov3d_triu_same_upper (cov3d cov3d' : Tensor) (batch : list nat) :
  shape cov3d = batch ++ [3; 3]%nat ->
  shape cov3d' = batch ++ [3; 3]%nat ->
  requires_grad cov3d = requires_grad cov3d' ->
  same_upper33 cov3d cov3d' ->
  pack_cov3d_triu cov3d = pack_cov3d_triu cov3d'.
Proof.
  intros Hs Hs' Hrg Hup.
  rewrite (pack_cov3d_triu_batch cov3d batch Hs).
  rewrite (pack_cov3d_triu_batch cov3d' batch Hs').
  rewrite Hrg. do 2 f_equal.
  apply flat_map_ext_seq. intros b _.
  rewrite !(Hup b) by lia. reflexivity.
Qed.

Section Noninterference.
Context `{Backend}.

  (** C10: two calls of [project_gaussians_given_cov3d] whose covariances
      agree on the upper triangles (diagonal included) and differ in the
      strictly lower triangles make the same kernel calls and give the same
      six projection outputs. *)
Theorem lower_triangle_not_observed
      (means3d cov3d cov3d' viewmat : Tensor) (batch : list nat)
      (fx fy cx cy : R) (img_height img_width block_width : Z)
      (clip_thresh : R) :
    shape cov3d = batch ++ [3; 3]%nat ->
    shape cov3d' = batch ++ [3; 3]%nat ->
    requires_grad cov3d = requires_grad cov3d' ->
    same_upper33 cov3d cov3d' ->
    let run c :=
      project_gaussians_given_cov3d means3d c viewmat fx fy cx cy
        img_height img_width block_width clip_thresh in
    calls (run cov3d) = calls (run cov3d') /\
    map_outcome projection_of (outcome (run cov3d)) =
    map_outcome projection_of (outcome (run cov3d')).
Proof.
    intros Hs Hs' Hrg Hup run. subst run.
    unfold project_gaussians_given_cov3d.
    rewrite (pack_cov3d_triu_same_upper cov3d cov3d' batch Hs Hs' Hrg Hup).
    destruct (pack_cov3d_triu cov3d') as [tr [e | triu]].
    - split; reflexivity.
    - unfold bind at 1 3 5 7.
      destruct (_ProjectGaussians.apply (contiguous means3d) triu
                  (contiguous viewmat) fx fy cx cy img_height img_width
                  block_width clip_thresh) as [tr' [e | out]].
      + split; reflexivity.
      + destruct out as [[[[[xys depths] radii] conics] comp] tiles].
        split; reflexivity.
Qed.

End Noninterference.

Lemma same_upper33_one_cov (l l' : R) :
  same_upper33 (Examples.one_cov l) (Examples.one_cov l').
Proof.
  intros b i j Hij Hj. unfold entry33, Examples.one_cov. cbn [data].
  destruct b as [| b].
  - destruct j as [| [| [| j]]]; try lia;
      destruct i as [| [| [| i]]]; try lia; reflexivity.
  - rewrite !nth_overflow by (cbn [List.length]; lia). reflexivity.
Qed.

Lemma lower_triangle_not_observed_witness :
  let run c :=
    project_gaussians_given_cov3d (H := Examples.backend)
      Examples.one_mean c (Examples.eye4 false) 1 1 16 16 32 32 16
      (1 / 100) in
  calls (run (Examples.one_cov 0)) = calls (run (Examples.one_cov 7)) /\
  map_outcome projection_of (outcome (run (Examples.one_cov 0))) =
  map_outcome projection_of (outcome (run (Examples.one_cov 7))).
Proof.
  apply (lower_triangle_not_observed (H := Examples.backend)
           Examples.one_mean (Examples.one_cov 0) (Examples.one_cov 7)
           (Examples.eye4 false) [1%nat]).
  - reflexivity.
  - reflexivity.
  - reflexivity.
  - apply same_upper33_one_cov.
Defined.

(** ** Shape validation in [forward] *)

Lemma shape_index_num_points (batch : list nat) (n d : nat) :
  shape_index (batch ++ [n; d]) (-2) = ret n.
Proof.
  unfold shape_index. rewrite length_app. cbn [List.length Z.ltb Z.compare].
  replace (-2 + Z.of_nat (List.length batch + 2))%Z
    with (Z.of_nat (List.length batch)) by lia.
  replace ((0 <=? Z.of_nat (List.length batch))%Z) with true
    by (symmetry; apply Z.leb_le; lia).
  replace ((Z.of_nat (List.length batch)
            <? Z.of_nat (List.length batch + 2))%Z) with true
    by (symmetry; apply Z.ltb_lt; lia).
  cbn [andb]. rewrite Nat2Z.id, nth_error_app2 by lia.
  rewrite Nat.sub_diag. reflexivity.
Qed.

Lemma shape_index_last_dim (batch : list nat) (n d : nat) :
  shape_index (batch ++ [n; d]) (-1) = ret d.
Proof.
  unfold shape_index. rewrite length_app. cbn [List.length Z.ltb Z.compare].
  replace (-1 + Z.of_nat (List.length batch + 2))%Z
    with (Z.of_nat (List.length batch + 1)) by lia.
  replace ((0 <=? Z.of_nat (List.length batch + 1))%Z) with true
    by (symmetry; apply Z.leb_le; lia).
  replace ((Z.of_nat (List.length batch + 1)
            <? Z.of_nat (List.length batch + 2))%Z) with true
    by (symmetry; apply Z.ltb_lt; lia).
  cbn [andb]. rewrite Nat2Z.id, nth_error_app2 by lia.
  replace (List.length batch + 1 - List.length batch)%nat with 1%nat by lia.
  reflexivity.
Qed.

(** A shape with fewer than two dimensions has no [shape[-2]]. *)
Lemma shape_index_low_rank (s : list nat) :
  (List.length s < 2)%nat ->
  shape_index s (-2) = raise (IndexError "tuple index out of range").
Proof.
  intros Hlen. unfold shape_index. cbn [Z.ltb Z.compare].
  destruct s as [| a [| b s]]; cbn in *; try reflexivity; lia.
Qed.

Section Forward.
Context `{Backend}.

(** C3 (amended): when [means3d] has at least two dimensions and its
    number of points [shape[-2]] is below 1 or its last dimension is not 3,
    [forward] raises the [ValueError] that carries the offending shape; it
    has called no kernel and returns no output. *)
Theorem forward_rejects_bad_shape
      (means3d cov3d_triu viewmat : Tensor) (batch : list nat) (n d : nat)
      (fx fy cx cy : R) (img_height img_width block_width : Z)
      (clip_thresh : R) :
    shape means3d = batch ++ [n; d] ->
    (n < 1)%nat \/ d <> 3%nat ->
    _ProjectGaussians.forward means3d cov3d_triu viewmat fx fy cx cy
      img_height img_width block_width clip_thresh =
    ([], inl (ValueError "Invalid shape for means3d: " (shape means3d))).
Proof.
    intros Hs Hbad. unfold _ProjectGaussians.forward.
    rewrite Hs, shape_index_num_points, bind_ret_l.
    destruct (n <? 1)%nat eqn:Hn.
    - rewrite bind_ret_l. reflexivity.
    - rewrite shape_index_last_dim, !bind_ret_l.
      apply Nat.ltb_ge in Hn.
      destruct Hbad as [Hlt | Hd]; [lia |].
      apply Nat.eqb_neq in Hd. rewrite Hd. reflexivity.
Qed.

  (** On a well-shaped [means3d] the kernel is called once, with the
      arguments of [forward] and the number of rows. *)
Lemma forward_accepts
      (means3d cov3d_triu viewmat : Tensor) (batch : list nat) (n : nat)
      (fx fy cx cy : R) (img_height img_width block_width : Z)
      (clip_thresh : R) :
    shape means3d = batch ++ [n; 3%nat] ->
    (1 <= n)%nat ->
    exists ctx,
      _ProjectGaussians.forward means3d cov3d_triu viewmat fx fy cx cy
        img_height img_width block_width clip_thresh =
      ([EvProjectForward n means3d cov3d_triu viewmat fx fy cx cy
          img_height img_width block_width clip_thresh],
       inr (ctx,
            project_gaussians_forward n means3d cov3d_triu viewmat
              fx fy cx cy img_height img_width block_width clip_thresh))
      /\ ctx_num_points ctx = n
      /\ fst (fst (fst (fst (fst (saved_tensors ctx))))) = means3d
      /\ snd (fst (fst (fst (fst (saved_tensors ctx))))) = viewmat.
Proof.
    intros Hs Hn. unfold _ProjectGaussians.forward.
    rewrite Hs, shape_index_num_points, bind_ret_l.
    replace (n <? 1)%nat with false by (symmetry; apply Nat.ltb_ge; lia).
    rewrite shape_index_last_dim, !bind_ret_l. cbn [Nat.eqb negb].
    rewrite bind_emit.
    destruct (project_gaussians_forward n means3d cov3d_triu viewmat
                fx fy cx cy img_height img_width block_width clip_thresh)
      as [[[[[xys depths] radii] conics] comp] tiles].
    eexists. split; [reflexivity |]. cbn. repeat split; reflexivity.
Qed.

  (** Whatever the shape, a failing [forward] has called no kernel. *)
Lemma forward_failure_calls_nothing
      (means3d cov3d_triu viewmat : Tensor)
      (fx fy cx cy : R) (img_height img_width block_width : Z)
      (clip_thresh : R) (e : exn) :
    outcome (_ProjectGaussians.forward means3d cov3d_triu viewmat
               fx fy cx cy img_height img_width block_width clip_thresh)
    = inl e ->
    calls (_ProjectGaussians.forward means3d cov3d_triu viewmat
             fx fy cx cy img_height img_width block_width clip_thresh)
    = [].
Proof.
    unfold _ProjectGaussians.forward.
    destruct (shape_index (shape means3d) (-2)) as [tr [e0 | n]] eqn:Hn.
    - unfold shape_index in Hn.
      repeat match type of Hn with
             | context [if ?c then _ else _] => destruct c
             | context [match ?c with _ => _ end] => destruct c
             end; inversion Hn; subst; intros _; reflexivity.
    - assert (tr = []) as ->.
      { unfold shape_index in Hn.
        repeat match type of Hn with
               | context [if ?c then _ else _] => destruct c
               | context [match ?c with _ => _ end] => destruct c
               end; inversion Hn; reflexivity. }
      change ([], @inr exn nat n) with (ret n). rewrite bind_ret_l.
      destruct (n <? 1)%nat.
      + rewrite bind_ret_l. intros _. reflexivity.
      + destruct (shape_index (shape means3d) (-1)) as [tr1 [e1 | d]] eqn:Hd.
        * unfold shape_index in Hd.
          repeat match type of Hd with
                 | context [if ?c then _ else _] => destruct c
                 | context [match ?c with _ => _ end] => destruct c
                 end; inversion Hd; subst; intros _; reflexivity.
        * assert (tr1 = []) as ->.
          { unfold shape_index in Hd.
            repeat match type of Hd with
                   | context [if ?c then _ else _] => destruct c
                   | context [match ?c with _ => _ end] => destruct c
                   end; inversion Hd; reflexivity. }
          change ([], @inr exn nat d) with (ret d). rewrite !bind_ret_l.
          destruct (negb (d =? 3)%nat).
          -- intros _. reflexivity.
          -- rewrite bind_emit.
             destruct (project_gaussians_forward n means3d cov3d_triu
                         viewmat fx fy cx cy img_height img_width
                         block_width clip_thresh)
               as [[[[[xys depths] radii] conics] comp] tiles].
             cbn. discriminate.
Qed.

End Forward.

Lemma forward_rejects_bad_shape_witness :
  _ProjectGaussians.forward (H := Examples.backend) Examples.no_means
    Examples.one_packed (Examples.eye4 false) 1 1 16 16 32 32 16 (1 / 100) =
  ([], inl (ValueError "Invalid shape for means3d: " [0; 3]%nat)).
Proof.
  apply (forward_rejects_bad_shape (H := Examples.backend) Examples.no_means
           Examples.one_packed (Examples.eye4 false) [] 0 3).
  - reflexivity.
  - left. lia.
Defined.

(** ** The reverse pass *)

Lemma slice_3x3_defined (t : Tensor) :
  (2 <= List.length (shape t))%nat ->
  exists block, slice_3x3 t = ret block.
Proof.
  intros Hrank. unfold slice_3x3. rewrite <- length_rev in Hrank.
  destruct (rev (shape t)) as [| c [| r batch_rev]]; cbn in Hrank; try lia.
  eexists. reflexivity.
Qed.

Section Backward.
Context `{Backend}.

(** The reverse pass on a context whose view matrix can be sliced. *)
Lemma backward_run
    (ih iw : Z) (n : nat) (fx fy cx cy : R)
    (means3d viewmat cov3d_triu radii conics compensation : Tensor)
    (v_xys v_depths : Tensor) (v_radii : option Tensor)
    (v_conics v_compensation : Tensor) (v_num_tiles_hit : option Tensor)
    (v_cov2d v_cov3d v_mean3d : Tensor) :
  requires_grad viewmat = false \/ (2 <= List.length (shape viewmat))%nat ->
  project_gaussians_backward n means3d cov3d_triu viewmat fx fy cx cy ih iw
    radii conics compensation v_xys v_depths v_conics v_compensation
    = (v_cov2d, v_cov3d, v_mean3d) ->
  _ProjectGaussians.backward
    (mkCtx ih iw n fx fy cx cy
       (means3d, viewmat, cov3d_triu, radii, conics, compensation))
    v_xys v_depths v_radii v_conics v_compensation v_num_tiles_hit =
  ([EvProjectBackward n means3d cov3d_triu viewmat fx fy cx cy ih iw
      radii conics compensation v_xys v_depths v_conics v_compensation],
   inr (Some v_mean3d, Some v_cov3d,
        if requires_grad viewmat then Some (zeros_like viewmat) else None,
        None, None, None, None, None, None, None, None)).
Proof.
  intros Hview Hk. unfold _ProjectGaussians.backward.
  cbn [saved_tensors ctx_num_points ctx_fx ctx_fy ctx_cx ctx_cy
       ctx_img_height ctx_img_width].
  rewrite bind_emit, Hk.
  destruct (requires_grad viewmat) eqn:Hrg.
  - destruct Hview as [Hno | Hrank]; [discriminate |].
    destruct (slice_3x3_defined viewmat Hrank) as [block ->].
    rewrite !bind_ret_l. reflexivity.
  - rewrite !bind_ret_l. reflexivity.
Qed.

(** C4: on a 4x4 view matrix, [backward] calls the backward kernel once
    and returns that kernel's v_mean3d and v_cov3d in the first two slots
    (v_cov2d is dropped); the slot of the view matrix holds a 4x4 tensor
    (the zero tensor of [torch.zeros_like]) when the view matrix requires a
    gradient and [None] when it does not; neither case is an error. *)
Theorem backward_viewmat_gradient
    (ih iw : Z) (n : nat) (fx fy cx cy : R)
    (means3d viewmat cov3d_triu radii conics compensation : Tensor)
    (v_xys v_depths : Tensor) (v_radii : option Tensor)
    (v_conics v_compensation : Tensor) (v_num_tiles_hit : option Tensor) :
  shape viewmat = [4; 4]%nat ->
  let run :=
    _ProjectGaussians.backward
      (mkCtx ih iw n fx fy cx cy
         (means3d, viewmat, cov3d_triu, radii, conics, compensation))
      v_xys v_depths v_radii v_conics v_compensation v_num_tiles_hit in
  let '(v_cov2d, v_cov3d, v_mean3d) :=
    project_gaussians_backward n means3d cov3d_triu viewmat fx fy cx cy
      ih iw radii conics compensation
      v_xys v_depths v_conics v_compensation in
  calls run =
    [EvProjectBackward n means3d cov3d_triu viewmat fx fy cx cy ih iw
       radii conics compensation v_xys v_depths v_conics v_compensation] /\
  exists v_viewmat,
    outcome run =
    inr (Some v_mean3d, Some v_cov3d, v_viewmat,
         None, None, None, None, None, None, None, None) /\
    (requires_grad viewmat = true ->
     v_viewmat = Some (zeros_like viewmat) /\
     shape (zeros_like viewmat) = [4; 4]%nat) /\
    (requires_grad viewmat = false -> v_viewmat = None).
Proof.
  intros Hshape run. subst run.
  destruct (project_gaussians_backward n means3d cov3d_triu viewmat
              fx fy cx cy ih iw radii conics compensation
              v_xys v_depths v_conics v_compensation)
    as [[v_cov2d v_cov3d] v_mean3d] eqn:Hk.
  rewrite (backward_run ih iw n fx fy cx cy means3d viewmat cov3d_triu
             radii conics compensation v_xys v_depths v_radii v_conics
             v_compensation v_num_tiles_hit v_cov2d v_cov3d v_mean3d)
    by (try exact Hk; right; rewrite Hshape; cbn; lia).
  split; [reflexivity |].
  eexists. split; [reflexivity |]. split.
  - intros ->. split; [reflexivity | exact Hshape].
  - intros ->. reflexivity.
Qed.

(** C5: the gradients that come in for radii and num_tiles_hit are not
    read: two reverse passes that differ only there make the same kernel
    call and return the same gradients. *)
Theorem backward_ignores_radii_and_tiles
    (ctx : Ctx) (v_xys v_depths v_conics v_compensation : Tensor)
    (v_radii v_radii' v_num_tiles_hit v_num_tiles_hit' : option Tensor) :
  _ProjectGaussians.backward ctx v_xys v_depths v_radii
    v_conics v_compensation v_num_tiles_hit =
  _ProjectGaussians.backward ctx v_xys v_depths v_radii'
    v_conics v_compensation v_num_tiles_hit'.
Proof. reflexivity. Qed.

(** C9: whenever the view matrix can be sliced (or needs no gradient),
    [backward] returns, and its slots for fx, fy, cx, cy, img_height,
    img_width, block_width and clip_thresh are all [None]. *)
Theorem backward_no_gradient_for_configuration
    (ctx : Ctx) (v_xys v_depths : Tensor) (v_radii : option Tensor)
    (v_conics v_compensation : Tensor) (v_num_tiles_hit : option Tensor) :
  requires_grad (saved_viewmat ctx) = false \/
  (2 <= List.length (shape (saved_viewmat ctx)))%nat ->
  exists v_mean3d v_cov3d v_viewmat,
    outcome (_ProjectGaussians.backward ctx v_xys v_depths v_radii
               v_conics v_compensation v_num_tiles_hit) =
    inr (v_mean3d, v_cov3d, v_viewmat,
         None, None, None, None, None, None, None, None).
Proof.
  destruct ctx as [ih iw n fx fy cx cy
                   [[[[[means3d viewmat] cov3d_triu] radii] conics] comp]].
  cbn [saved_viewmat saved_tensors]. intros Hview.
  destruct (project_gaussians_backward n means3d cov3d_triu viewmat
              fx fy cx cy ih iw radii conics comp
              v_xys v_depths v_conics v_compensation)
    as [[v_cov2d v_cov3d] v_mean3d] eqn:Hk.
  rewrite (backward_run ih iw n fx fy cx cy means3d viewmat cov3d_triu
             radii conics comp v_xys v_depths v_radii v_conics
             v_compensation v_num_tiles_hit v_cov2d v_cov3d v_mean3d
             Hview Hk).
  do 3 eexists. reflexivity.
Qed.

(** If [backward] returns at all, the eight configuration slots are
    [None]: no path of the function fills them. *)
Lemma backward_configuration_slots
    (ctx : Ctx) (v_xys v_depths : Tensor) (v_radii : option Tensor)
    (v_conics v_compensation : Tensor) (v_num_tiles_hit : option Tensor)
    (g : Gradients) :
  outcome (_ProjectGaussians.backward ctx v_xys v_depths v_radii
             v_conics v_compensation v_num_tiles_hit) = inr g ->
  exists v_mean3d v_cov3d v_viewmat,
    g = (v_mean3d, v_cov3d, v_viewmat,
         None, None, None, None, None, None, None, None).
Proof.
  destruct ctx as [ih iw n fx fy cx cy
                   [[[[[means3d viewmat] cov3d_triu] radii] conics] comp]].
  unfold _ProjectGaussians.backward.
  cbn [saved_tensors ctx_num_points ctx_fx ctx_fy ctx_cx ctx_cy
       ctx_img_height ctx_img_width].
  rewrite bind_emit.
  destruct (project_gaussians_backward n means3d cov3d_triu viewmat
              fx fy cx cy ih iw radii conics comp
              v_xys v_depths v_conics v_compensation)
    as [[v_cov2d v_cov3d] v_mean3d].
  destruct (requires_grad viewmat).
  - destruct (slice_3x3 viewmat) as [tr [e | block]].
    + cbn. discriminate.
    + cbn. intros Hg. inversion Hg. do 3 eexists. reflexivity.
  - cbn. intros Hg. inversion Hg. do 3 eexists. reflexivity.
Qed.

End Backward.

Lemma backward_viewmat_gradient_witness :
  let v_xys := mkTensor [1; 2]%nat [1; 1] false in
  let v_depths := mkTensor [1]%nat [1] false in
  let v_conics := mkTensor [1; 3]%nat [1; 1; 1] false in
  let v_compensation := mkTensor [1]%nat [1] false in
  let radii := mkTensor [1]%nat [1] false in
  let conics := mkTensor [1; 3]%nat [1; 0; 1] false in
  let compensation := mkTensor [1]%nat [1] false in
  let run :=
    _ProjectGaussians.backward (H := Examples.backend)
      (Examples.example_ctx true) v_xys v_depths None v_conics
      v_compensation None in
  calls run =
    [EvProjectBackward 1 Examples.one_mean Examples.one_packed
       (Examples.eye4 true) 1 1 16 16 32 32 radii conics compensation
       v_xys v_depths v_conics v_compensation] /\
  exists v_viewmat,
    outcome run =
    inr (Some (zeros_like Examples.one_mean),
         Some (zeros_like Examples.one_packed), v_viewmat,
         None, None, None, None, None, None, None, None) /\
    (requires_grad (Examples.eye4 true) = true ->
     v_viewmat = Some (zeros_like (Examples.eye4 true)) /\
     shape (zeros_like (Examples.eye4 true)) = [4; 4]%nat) /\
    (requires_grad (Examples.eye4 true) = false -> v_viewmat = None).
Proof.
  exact (backward_viewmat_gradient (H := Examples.backend)
           32 32 1 1 1 16 16 Examples.one_mean (Examples.eye4 true)
           Examples.one_packed (mkTensor [1]%nat [1] false)
           (mkTensor [1; 3]%nat [1; 0; 1] false)
           (mkTensor [1]%nat [1] false)
           (mkTensor [1; 2]%nat [1; 1] false) (mkTensor [1]%nat [1] false)
           None (mkTensor [1; 3]%nat [1; 1; 1] false)
           (mkTensor [1]%nat [1] false) None eq_refl).
Defined.

Lemma backward_no_gradient_for_configuration_witness :
  exists v_mean3d v_cov3d v_viewmat,
    outcome (_ProjectGaussians.backward (H := Examples.backend)
               (Examples.example_ctx false)
               (mkTensor [1; 2]%nat [1; 1] false)
               (mkTensor [1]%nat [1] false) None
               (mkTensor [1; 3]%nat [1; 1; 1] false)
               (mkTensor [1]%nat [1] false) None) =
    inr (v_mean3d, v_cov3d, v_viewmat,
         None, None, None, None, None, None, None, None).
Proof.
  apply (backward_no_gradient_for_configuration (H := Examples.backend)
           (Examples.example_ctx false)).
  left. reflexivity.
Defined.

(** ** The norm check on the quaternions *)

Lemma norm_single_axis (a : R) :
  0 <= a -> sqrt (sum_squares [a; 0; 0; 0]) = a.
Proof.
  intros Ha. unfold sum_squares. cbn [fold_right].
  replace (a * a + (0 * 0 + (0 * 0 + (0 * 0 + 0)))) with (a * a) by ring.
  apply sqrt_square. exact Ha.
Qed.

Lemma quats_normalized_single_axis (a : R) (rg : bool) :
  0 <= a ->
  quats_normalized (mkTensor [1; 4]%nat [a; 0; 0; 0] rg) =
  Rltb (a - 1) (1 / 1000000).
Proof.
  intros Ha. unfold quats_normalized, norm_last, split_last, row.
  cbn [shape data rev app numel fold_right Nat.mul Nat.add seq map
       skipn firstn forallb].
  rewrite (norm_single_axis a Ha). apply andb_true_r.
Qed.

(** The check lets a quaternion of norm 1/2 through. *)
Lemma quats_normalized_half_quat :
  quats_normalized Examples.half_quat = true.
Proof.
  unfold Examples.half_quat.
  rewrite quats_normalized_single_axis by lra.
  apply Rltb_true. lra.
Qed.

Lemma quats_normalized_unit_quat :
  quats_normalized Examples.unit_quat = true.
Proof.
  unfold Examples.unit_quat.
  rewrite quats_normalized_single_axis by lra.
  apply Rltb_true. lra.
Qed.

(** The check stops a quaternion of norm 2. *)
Lemma quats_normalized_double_quat :
  quats_normalized Examples.double_quat = false.
Proof.
  unfold Examples.double_quat.
  rewrite quats_normalized_single_axis by lra.
  apply Rltb_false. lra.
Qed.

(** ** The entry points *)

Section EntryPointProperties.
Context `{Backend}.

(** [project_gaussians] once both assertions hold. *)
Lemma project_gaussians_checked
    (means3d scales : Tensor) (glob_scale : R) (quats viewmat : Tensor)
    (fx fy cx cy : R) (img_height img_width block_width : Z)
    (clip_thresh : R) :
  (1 < block_width <= 16)%Z ->
  quats_normalized quats = true ->
  let rest :=
    project_gaussians_given_cov3d means3d
      (scale_rot_to_cov3d scales glob_scale quats) viewmat fx fy cx cy
      img_height img_width block_width clip_thresh in
  project_gaussians means3d scales glob_scale quats viewmat fx fy cx cy
    img_height img_width block_width clip_thresh =
  (EvScaleRotToCov3d scales glob_scale quats :: calls rest, outcome rest).
Proof.
  intros [Hlo Hhi] Hq rest. unfold project_gaussians.
  apply Z.ltb_lt in Hlo. apply Z.leb_le in Hhi.
  rewrite Hlo, Hhi, Hq. cbn [andb].
  rewrite !py_assert_true, !bind_ret_l, bind_emit. reflexivity.
Qed.

(** The sibling check: [project_gaussians] refuses a tile side outside
    [2, 16] before anything else. *)
Lemma project_gaussians_rejects_block_width
    (means3d scales : Tensor) (glob_scale : R) (quats viewmat : Tensor)
    (fx fy cx cy : R) (img_height img_width block_width : Z)
    (clip_thresh : R) :
  (block_width < 2 \/ 16 < block_width)%Z ->
  project_gaussians means3d scales glob_scale quats viewmat fx fy cx cy
    img_height img_width block_width clip_thresh =
  ([], inl (AssertionError "block_width must be between 2 and 16")).
Proof.
  intros Hbw. unfold project_gaussians.
  replace ((1 <? block_width)%Z && (block_width <=? 16)%Z) with false.
  - reflexivity.
  - symmetry. apply andb_false_iff.
    destruct Hbw; [left; apply Z.ltb_ge | right; apply Z.leb_gt]; lia.
Qed.

(** A row whose norm exceeds 1 by 1e-6 or more stops the call at the
    second assertion, before the covariance builder runs. *)
Lemma project_gaussians_rejects_long_quats
    (means3d scales : Tensor) (glob_scale : R) (quats viewmat : Tensor)
    (fx fy cx cy : R) (img_height img_width block_width : Z)
    (clip_thresh : R) :
  (1 < block_width <= 16)%Z ->
  quats_normalized quats = false ->
  project_gaussians means3d scales glob_scale quats viewmat fx fy cx cy
    img_height img_width block_width clip_thresh =
  ([], inl (AssertionError "quats must be normalized")).
Proof.
  intros [Hlo Hhi] Hq. unfold project_gaussians.
  apply Z.ltb_lt in Hlo. apply Z.leb_le in Hhi.
  rewrite Hlo, Hhi, Hq. reflexivity.
Qed.

(** C1 (evaluation at the failing input): a quaternion of norm 1/2 differs
    from unit norm by far more than 1e-6, yet both assertions of
    [project_gaussians] pass: the covariance builder is called on it and
    the call goes on into the projection. *)
Theorem project_gaussians_accepts_half_norm_quat
    (means3d scales : Tensor) (glob_scale : R) (viewmat : Tensor)
    (fx fy cx cy : R) (img_height img_width : Z) (clip_thresh : R) :
  let rest :=
    project_gaussians_given_cov3d means3d
      (scale_rot_to_cov3d scales glob_scale Examples.half_quat) viewmat
      fx fy cx cy img_height img_width 16 clip_thresh in
  project_gaussians means3d scales glob_scale Examples.half_quat viewmat
    fx fy cx cy img_height img_width 16 clip_thresh =
  (EvScaleRotToCov3d scales glob_scale Examples.half_quat :: calls rest,
   outcome rest).
Proof.
  apply project_gaussians_checked.
  - lia.
  - exact quats_normalized_half_quat.
Qed.

(** [project_gaussians_given_cov3d] on a batch of 3x3 covariances and a
    well-shaped [means3d]. *)
Lemma project_gaussians_given_cov3d_run
    (means3d cov3d viewmat : Tensor) (cbatch batch : list nat) (n : nat)
    (fx fy cx cy : R) (img_height img_width block_width : Z)
    (clip_thresh : R) :
  shape cov3d = cbatch ++ [3; 3]%nat ->
  shape means3d = batch ++ [n; 3%nat] ->
  (1 <= n)%nat ->
  exists cov3d_triu xys depths radii conics comp num_tiles_hit,
    pack_cov3d_triu cov3d = ret cov3d_triu /\
    project_gaussians_forward n means3d cov3d_triu viewmat fx fy cx cy
      img_height img_width block_width clip_thresh =
    (xys, depths, radii, conics, comp, num_tiles_hit) /\
    project_gaussians_given_cov3d means3d cov3d viewmat fx fy cx cy
      img_height img_width block_width clip_thresh =
    ([EvProjectForward n means3d cov3d_triu viewmat fx fy cx cy
        img_height img_width block_width clip_thresh],
     inr (xys, depths, radii, conics, comp, num_tiles_hit, cov3d)).
Proof.
  intros Hc Hm Hn. unfold project_gaussians_given_cov3d.
  rewrite (pack_cov3d_triu_batch cov3d cbatch Hc), bind_ret_l.
  set (triu := mkTensor _ _ _).
  unfold _ProjectGaussians.apply, contiguous.
  destruct (forward_accepts means3d triu viewmat batch n fx fy cx cy
              img_height img_width block_width clip_thresh Hm Hn)
    as [ctx [-> _]].
  destruct (project_gaussians_forward n means3d triu viewmat fx fy cx cy
              img_height img_width block_width clip_thresh)
    as [[[[[xys depths] radii] conics] comp] tiles] eqn:Hk.
  exists triu, xys, depths, radii, conics, comp, tiles.
  split; [reflexivity |]. split; [exact Hk |]. reflexivity.
Qed.

(** C2 (evaluation at the failing input): with a tile side of 17,
    [project_gaussians_given_cov3d] raises nothing; it calls the kernel
    with [block_width = 17] and returns what the kernel returns. *)
Theorem project_gaussians_given_cov3d_accepts_block_width_17
    (viewmat : Tensor) (fx fy cx cy : R) (img_height img_width : Z)
    (clip_thresh : R) :
  let packed := mkTensor [1; 6]%nat [1; 2; 3; 4; 5; 6] false in
  let run :=
    project_gaussians_given_cov3d Examples.one_mean (Examples.one_cov 0)
      viewmat fx fy cx cy img_height img_width 17 clip_thresh in
  calls run =
    [EvProjectForward 1 Examples.one_mean packed viewmat fx fy cx cy
       img_height img_width 17 clip_thresh] /\
  map_outcome projection_of (outcome run) =
    inr (project_gaussians_forward 1 Examples.one_mean packed viewmat
           fx fy cx cy img_height img_width 17 clip_thresh).
Proof.
  intros packed run. subst run.
  destruct (project_gaussians_given_cov3d_run Examples.one_mean
              (Examples.one_cov 0) viewmat [1%nat] [] 1 fx fy cx cy
              img_height img_width 17 clip_thresh
              eq_refl eq_refl (le_n 1))
    as (triu & xys & depths & radii & conics & comp & tiles & Hp & Hk & ->).
  rewrite (pack_cov3d_triu_batch (Examples.one_cov 0) [1%nat] eq_refl) in Hp.
  injection Hp as Hp. subst triu.
  cbn [calls outcome fst snd map_outcome projection_of]. split.
  - reflexivity.
  - f_equal. symmetry. exact Hk.
Qed.

(** C7: on a valid call, [project_gaussians] first calls the covariance
    builder on (scales, glob_scale, quats), then runs the projection on the
    packed form of that covariance, and returns the kernel's six outputs
    followed by the built covariance as the seventh element. *)
Theorem project_gaussians_builds_then_projects
    (means3d scales : Tensor) (glob_scale : R) (quats viewmat : Tensor)
    (cbatch batch : list nat) (n : nat)
    (fx fy cx cy : R) (img_height img_width block_width : Z)
    (clip_thresh : R) :
  (1 < block_width <= 16)%Z ->
  quats_normalized quats = true ->
  shape (scale_rot_to_cov3d scales glob_scale quats) = cbatch ++ [3; 3]%nat ->
  shape means3d = batch ++ [n; 3%nat] ->
  (1 <= n)%nat ->
  let cov3d := scale_rot_to_cov3d scales glob_scale quats in
  exists cov3d_triu xys depths radii conics comp num_tiles_hit,
    pack_cov3d_triu cov3d = ret cov3d_triu /\
    project_gaussians_forward n means3d cov3d_triu viewmat fx fy cx cy
      img_height img_width block_width clip_thresh =
    (xys, depths, radii, conics, comp, num_tiles_hit) /\
    project_gaussians means3d scales glob_scale quats viewmat fx fy cx cy
      img_height img_width block_width clip_thresh =
    ([EvScaleRotToCov3d scales glob_scale quats;
      EvProjectForward n means3d cov3d_triu viewmat fx fy cx cy
        img_height img_width block_width clip_thresh],
     inr (xys, depths, radii, conics, comp, num_tiles_hit, cov3d)).
Proof.
  intros Hbw Hq Hc Hm Hn cov3d.
  destruct (project_gaussians_given_cov3d_run means3d cov3d viewmat
              cbatch batch n fx fy cx cy img_height img_width block_width
              clip_thresh Hc Hm Hn)
    as (triu & xys & depths & radii & conics & comp & tiles & Hp & Hk & Hrun).
  exists triu, xys, depths, radii, conics, comp, tiles.
  split; [exact Hp |]. split; [exact Hk |].
  rewrite (project_gaussians_checked means3d scales glob_scale quats viewmat
             fx fy cx cy img_height img_width block_width clip_thresh
             Hbw Hq).
  fold cov3d. rewrite Hrun. reflexivity.
Qed.

End EntryPointProperties.

Lemma project_gaussians_builds_then_projects_witness :
  let cov3d :=
    scale_rot_to_cov3d (Backend := Examples.backend)
      Examples.one_scale 1 Examples.unit_quat in
  exists cov3d_triu xys depths radii conics comp num_tiles_hit,
    pack_cov3d_triu cov3d = ret cov3d_triu /\
    project_gaussians_forward (Backend := Examples.backend) 1
      Examples.one_mean cov3d_triu (Examples.eye4 false) 1 1 16 16 32 32 16
      (1 / 100) =
    (xys, depths, radii, conics, comp, num_tiles_hit) /\
    project_gaussians (H := Examples.backend) Examples.one_mean
      Examples.one_scale 1 Examples.unit_quat (Examples.eye4 false)
      1 1 16 16 32 32 16 (1 / 100) =
    ([EvScaleRotToCov3d Examples.one_scale 1 Examples.unit_quat;
      EvProjectForward 1 Examples.one_mean cov3d_triu (Examples.eye4 false)
        1 1 16 16 32 32 16 (1 / 100)],
     inr (xys, depths, radii, conics, comp, num_tiles_hit, cov3d)).
Proof.
  apply (project_gaussians_builds_then_projects (H := Examples.backend)
           Examples.one_mean Examples.one_scale 1 Examples.unit_quat
           (Examples.eye4 false) [1%nat] [] 1).
  - lia.
  - exact quats_normalized_unit_quat.
  - reflexivity.
  - reflexivity.
  - lia.
Defined.

(** On the example backend the call with the quaternion of norm 1/2 runs
    to completion and returns the seven tensors. *)
Example half_norm_quat_returns :
  exists out,
    outcome (project_gaussians (H := Examples.backend) Examples.one_mean
               Examples.one_scale 1 Examples.half_quat (Examples.eye4 false)
               1 1 16 16 32 32 16 (1 / 100)) = inr out.
Proof.
  rewrite (project_gaussians_checked (H := Examples.backend))
    by (try lia; exact quats_normalized_half_quat).
  destruct (project_gaussians_given_cov3d_run (H := Examples.backend)
              Examples.one_mean
              (scale_rot_to_cov3d (Backend := Examples.backend)
                 Examples.one_scale 1 Examples.half_quat)
              (Examples.eye4 false) [1%nat] [] 1 1 1 16 16 32 32 16 (1 / 100)
              eq_refl eq_refl (le_n 1))
    as (triu & xys & depths & radii & conics & comp & tiles & _ & _ & ->).
  eexists. reflexivity.
Qed.

(** The same call with the quaternion of norm 2 is refused. *)
Example double_norm_quat_refused :
  project_gaussians (H := Examples.backend) Examples.one_mean
    Examples.one_scale 1 Examples.double_quat (Examples.eye4 false)
    1 1 16 16 32 32 16 (1 / 100) =
  ([], inl (AssertionError "quats must be normalized")).
Proof.
  apply project_gaussians_rejects_long_quats.
  - lia.
  - exact quats_normalized_double_quat.
Qed.

(** ** Near-plane culling in the specified kernel *)

Lemma nth_flat_map_pair {A} (f g : A -> R) (l : list A) (i : nat) (d : A) :
  (i < List.length l)%nat ->
  nth (2 * i) (flat_map (fun p => [f p; g p]) l) 0 = f (nth i l d) /\
  nth (2 * i + 1) (flat_map (fun p => [f p; g p]) l) 0 = g (nth i l d).
Proof.
  revert i. induction l as [| a l IH]; intros i Hi; cbn in Hi; [lia |].
  destruct i as [| i].
  - split; reflexivity.
  - replace (2 * S i)%nat with (S (S (2 * i))) by lia.
    replace (S (S (2 * i)) + 1)%nat with (S (S (2 * i + 1))) by lia.
    cbn [flat_map app nth]. apply IH. lia.
Qed.

Lemma nth_map_map_seq {A} (g : A -> R) (f : nat -> A) (n i : nat) :
  (i < n)%nat -> nth i (map g (map f (seq 0 n))) 0 = g (f i).
Proof.
  intros Hi. rewrite map_map. apply (nth_map_seq (fun k => g (f k))). exact Hi.
Qed.

Section NearPlane.
Variable ewa_and_tiles :
  list R -> R * R * R -> R * R -> Tensor -> R -> R -> R -> R -> Z -> Z -> Z ->
  (R * R * R) * R * Z * Z.
Variable culled_conic : R * R * R.
Variable culled_compensation : R.
Variable builder : Tensor -> R -> Tensor -> Tensor.
Variable adjoint :
  nat -> Tensor -> Tensor -> Tensor -> R -> R -> R -> R -> Z -> Z ->
  Tensor -> Tensor -> Tensor -> Tensor -> Tensor -> Tensor -> Tensor ->
  Tensor * Tensor * Tensor.

Let kernel_backend : Backend :=
  SpecKernel.backend ewa_and_tiles culled_conic culled_compensation
    builder adjoint.

(** C8: in the forward pass over the specified kernel, a primitive whose
    camera-space depth is below [clip_thresh] gets radius 0 and
    num_tiles_hit 0 and the call still succeeds, with its xy and depth
    slots filled by the pinhole projection and the camera-space depth; a
    primitive whose depth is not below [clip_thresh] gets the radius and
    tile count of the later stages. *)
Theorem forward_culls_below_clip_thresh
    (means3d cov3d_triu viewmat : Tensor) (batch : list nat) (n i : nat)
    (fx fy cx cy : R) (img_height img_width block_width : Z)
    (clip_thresh : R) :
  shape means3d = batch ++ [n; 3%nat] ->
  (i < n)%nat ->
  let cam := SpecKernel.camera_space viewmat (row 3 (data means3d) i) in
  let depth := snd cam in
  exists ctx xys depths radii conics comp num_tiles_hit,
    _ProjectGaussians.forward (H := kernel_backend) means3d cov3d_triu
      viewmat fx fy cx cy img_height img_width block_width clip_thresh =
    ([EvProjectForward n means3d cov3d_triu viewmat fx fy cx cy
        img_height img_width block_width clip_thresh],
     inr (ctx, (xys, depths, radii, conics, comp, num_tiles_hit))) /\
    shape xys = [n; 2%nat] /\ shape depths = [n] /\
    shape radii = [n] /\ shape num_tiles_hit = [n] /\
    (nth (2 * i) (data xys) 0, nth (2 * i + 1) (data xys) 0) =
      SpecKernel.pinhole fx fy cx cy cam /\
    nth i (data depths) 0 = depth /\
    (depth < clip_thresh ->
     nth i (data radii) 0 = 0 /\ nth i (data num_tiles_hit) 0 = 0) /\
    (clip_thresh < depth ->
     forall conic c radius tiles,
       ewa_and_tiles (row 6 (data cov3d_triu) i) cam
         (SpecKernel.pinhole fx fy cx cy cam) viewmat fx fy cx cy
         img_height img_width block_width = (conic, c, radius, tiles) ->
       nth i (data radii) 0 = IZR radius /\
       nth i (data num_tiles_hit) 0 = IZR tiles).
Proof.
  intros Hs Hi cam depth.
  destruct (forward_accepts (H := kernel_backend) means3d cov3d_triu viewmat
              batch n fx fy cx cy img_height img_width block_width
              clip_thresh Hs ltac:(lia))
    as [ctx [Hrun _]].
  rewrite Hrun. clear Hrun.
  cbn [project_gaussians_forward kernel_backend SpecKernel.backend].
  unfold SpecKernel.forward_kernel.
  set (prim := fun k : nat =>
         SpecKernel.project_primitive ewa_and_tiles culled_conic
           culled_compensation (row 3 (data means3d) k)
           (row 6 (data cov3d_triu) k) viewmat fx fy cx cy
           img_height img_width block_width clip_thresh).
  do 7 eexists. split; [reflexivity |].
  cbn [shape data].
  assert (Hxy : p_xy (prim i) = SpecKernel.pinhole fx fy cx cy cam).
  { unfold prim, SpecKernel.project_primitive. fold cam.
    destruct (Rltb (snd cam) clip_thresh); [reflexivity |].
    destruct (ewa_and_tiles _ _ _ _ _ _ _ _ _ _ _) as [[[? ?] ?] ?].
    reflexivity. }
  assert (Hdepth : p_depth (prim i) = depth).
  { unfold prim, SpecKernel.project_primitive. fold cam.
    destruct (Rltb (snd cam) clip_thresh); [reflexivity |].
    destruct (ewa_and_tiles _ _ _ _ _ _ _ _ _ _ _) as [[[? ?] ?] ?].
    reflexivity. }
  repeat (split; [reflexivity |]).
  split; [| split; [| split]].
  - destruct (nth_flat_map_pair (fun p => fst (p_xy p))
                (fun p => snd (p_xy p)) (map prim (seq 0 n)) i (prim 0%nat))
      as [H0 H1].
    { rewrite length_map, length_seq. exact Hi. }
    rewrite H0, H1.
    rewrite (map_nth prim (seq 0 n) 0%nat i), seq_nth by exact Hi.
    cbn [Nat.add]. rewrite Hxy. destruct (SpecKernel.pinhole _ _ _ _ _).
    reflexivity.
  - rewrite nth_map_map_seq by exact Hi. exact Hdepth.
  - intros Hlt. apply Rltb_true in Hlt.
    rewrite !nth_map_map_seq by exact Hi.
    unfold prim, SpecKernel.project_primitive. fold cam. fold depth.
    rewrite Hlt. split; reflexivity.
  - intros Hgt conic c radius tiles Hstage.
    assert (Hnot : Rltb depth clip_thresh = false)
      by (apply Rltb_false; lra).
    rewrite !nth_map_map_seq by exact Hi.
    unfold prim, SpecKernel.project_primitive. fold cam. fold depth.
    rewrite Hnot, Hstage. split; reflexivity.
Qed.

End NearPlane.

Lemma forward_culls_below_clip_thresh_witness :
  exists ctx xys depths radii conics comp num_tiles_hit,
    _ProjectGaussians.forward (H := Examples.backend) Examples.two_means
      Examples.two_packed (Examples.eye4 false) 1 1 16 16 32 32 16 (1 / 100) =
    ([EvProjectForward 2 Examples.two_means Examples.two_packed
        (Examples.eye4 false) 1 1 16 16 32 32 16 (1 / 100)],
     inr (ctx, (xys, depths, radii, conics, comp, num_tiles_hit))) /\
    nth 1 (data depths) 0 = -1 /\
    nth 1 (data radii) 0 = 0 /\
    nth 1 (data num_tiles_hit) 0 = 0.
Proof.
  destruct (forward_culls_below_clip_thresh Examples.unit_splat (0, 0, 0) 0
              Examples.axis_aligned_builder Examples.zero_adjoint
              Examples.two_means Examples.two_packed (Examples.eye4 false)
              [] 2 1 1 1 16 16 32 32 16 (1 / 100) eq_refl (le_n 2))
    as (ctx & xys & depths & radii & conics & comp & tiles & Hrun & _ & _ &
        _ & _ & _ & Hdepth & Hcull & _).
  assert (Hz : snd (SpecKernel.camera_space (Examples.eye4 false)
                      (row 3 (data Examples.two_means) 1)) = -1).
  { unfold SpecKernel.camera_space, row, Examples.eye4, Examples.two_means.
    cbn [data nth skipn firstn snd Nat.mul Nat.add]. ring. }
  exists ctx, xys, depths, radii, conics, comp, tiles.
  split; [exact Hrun |]. split.
  - rewrite Hdepth. exact Hz.
  - apply Hcull. rewrite Hz. lra.
Defined.

(** The first gaussian of the same batch lies in front of the near plane
    and keeps the radius and tile count of the later stages. *)
Example forward_keeps_visible_primitive :
  let '(_, _, radii, _, _, num_tiles_hit) :=
    project_gaussians_forward (Backend := Examples.backend) 2
      Examples.two_means Examples.two_packed (Examples.eye4 false)
      1 1 16 16 32 32 16 (1 / 100) in
  nth 0 (data radii) 0 = 1 /\ nth 0 (data num_tiles_hit) 0 = 1.
Proof.
  cbn [project_gaussians_forward Examples.backend SpecKernel.backend].
  unfold SpecKernel.forward_kernel.
  cbn [seq map data nth].
  unfold SpecKernel.project_primitive.
  assert (Hz : Rltb (snd (SpecKernel.camera_space (Examples.eye4 false)
                            (row 3 (data Examples.two_means) 0)))
                 (1 / 100) = false).
  { apply Rltb_false.
    unfold SpecKernel.camera_space, row, Examples.eye4, Examples.two_means.
    cbn [data nth skipn firstn snd Nat.mul Nat.add]. lra. }
  rewrite Hz. cbn [Examples.unit_splat p_radius p_num_tiles_hit].
  split; reflexivity.
Qed.

(** ** Further facts about the shape check *)

(** A [means3d] of fewer than two dimensions never reaches the check: the
    read of [shape[-2]] raises first, again before any kernel call. *)
Lemma forward_low_rank `{Backend}
    (means3d cov3d_triu viewmat : Tensor)
    (fx fy cx cy : R) (img_height img_width block_width : Z)
    (clip_thresh : R) :
  (List.length (shape means3d) < 2)%nat ->
  _ProjectGaussians.forward means3d cov3d_triu viewmat fx fy cx cy
    img_height img_width block_width clip_thresh =
  ([], inl (IndexError "tuple index out of range")).
Proof.
  intros Hrank. unfold _ProjectGaussians.forward.
  rewrite (shape_index_low_rank _ Hrank). reflexivity.
Qed.

(** C3 (counterexample): a [means3d] of shape [5] has a last dimension
    that is not 3, yet [forward] does not raise the [ValueError] that names
    the shape: reading [shape[-2]] raises an [IndexError] first. *)
Lemma forward_rank1_not_value_error :
  let run :=
    _ProjectGaussians.forward (H := Examples.backend) Examples.rank1_means
      Examples.one_packed (Examples.eye4 false) 1 1 16 16 32 32 16 (1 / 100)
  in
  shape_index (shape Examples.rank1_means) (-1) = ret 5%nat /\
  outcome run = inl (IndexError "tuple index out of range") /\
  outcome run <>
  inl (ValueError "Invalid shape for means3d: " (shape Examples.rank1_means)).
Proof.
  cbv zeta.
  rewrite (forward_low_rank (H := Examples.backend) Examples.rank1_means
             Examples.one_packed (Examples.eye4 false) 1 1 16 16 32 32 16
             (1 / 100)) by (cbn; lia).
  split; [reflexivity |]. split; [reflexivity |].
  cbn [outcome snd]. discriminate.
Qed.

(** Through [project_gaussians] the shape check comes after the covariance
    builder: the builder has run when the [ValueError] is raised. *)
Example project_gaussians_bad_shape :
  project_gaussians (H := Examples.backend) Examples.no_means
    Examples.one_scale 1 Examples.unit_quat (Examples.eye4 false)
    1 1 16 16 32 32 16 (1 / 100) =
  ([EvScaleRotToCov3d Examples.one_scale 1 Examples.unit_quat],
   inl (ValueError "Invalid shape for means3d: " [0; 3]%nat)).
Proof.
  rewrite (project_gaussians_checked (H := Examples.backend))
    by (try lia; exact quats_normalized_unit_quat).
  unfold project_gaussians_given_cov3d.
  rewrite (pack_cov3d_triu_batch
             (scale_rot_to_cov3d (Backend := Examples.backend)
                Examples.one_scale 1 Examples.unit_quat)
             [1%nat] eq_refl), bind_ret_l.
  unfold _ProjectGaussians.apply, contiguous.
  unfold _ProjectGaussians.forward. cbn [shape Examples.no_means].
  change (shape_index [0; 3]%nat (-2)) with (@ret nat 0%nat).
  rewrite !bind_ret_l. reflexivity.
Qed.

(** * Further properties of the bindings *)

(** ** Lists cut into rows *)

Lemma length_flat_map_rows (f : nat -> list R) (m s n : nat) :
  (forall b, List.length (f b) = m) ->
  List.length (flat_map f (seq s n)) = (n * m)%nat.
Proof.
  intros Hlen. revert s. induction n as [| n IH]; intros s; [reflexivity |].
  cbn [seq flat_map]. rewrite length_app, Hlen, IH. lia.
Qed.

Lemma nth_flat_map_rows (f : nat -> list R) (m s n b k : nat) :
  (forall b, List.length (f b) = m) ->
  (b < n)%nat -> (k < m)%nat ->
  nth (b * m + k) (flat_map f (seq s n)) 0 = nth k (f (s + b)%nat) 0.
Proof.
  intros Hlen. revert s b. induction n as [| n IH]; intros s b Hb Hk; [lia |].
  cbn [seq flat_map]. destruct b as [| b].
  - rewrite app_nth1 by (rewrite Hlen; lia).
    rewrite Nat.add_0_r. reflexivity.
  - rewrite app_nth2 by (rewrite Hlen; lia).
    rewrite Hlen.
    replace (S b * m + k - m)%nat with (b * m + k)%nat by lia.
    rewrite IH by lia. f_equal. f_equal. lia.
Qed.

(** A list of [n] rows of width [m] is the concatenation of its rows. *)
Lemma flat_map_rows_id (d : list R) (m n : nat) :
  List.length d = (n * m)%nat ->
  flat_map (fun b => map (fun k => nth (b * m + k) d 0) (seq 0 m)) (seq 0 n)
  = d.
Proof.
  intros Hd.
  assert (Hrow : forall b : nat,
             List.length (map (fun k => nth (b * m + k) d 0) (seq 0 m)) = m)
    by (intros b; rewrite length_map, length_seq; reflexivity).
  apply (nth_ext _ _ 0 0).
  - rewrite (length_flat_map_rows _ m) by exact Hrow. symmetry. exact Hd.
  - intros i Hi. rewrite (length_flat_map_rows _ m) in Hi by exact Hrow.
    assert (Hm : (0 < m)%nat) by (destruct m; [lia | lia]).
    assert (Hi' : (i = (i / m) * m + i mod m)%nat).
    { rewrite (Nat.div_mod_eq i m) at 1. lia. }
    assert (Hb : (i / m < n)%nat)
      by (apply Nat.Div0.div_lt_upper_bound; lia).
    assert (Hk : (i mod m < m)%nat) by (apply Nat.mod_upper_bound; lia).
    rewrite Hi' at 1.
    rewrite (nth_flat_map_rows _ m 0 n (i / m) (i mod m) Hrow Hb Hk).
    cbn [Nat.add].
    rewrite (nth_map_seq (fun k => nth (i / m * m + k) d 0) m (i mod m) Hk).
    rewrite <- Hi'. reflexivity.
Qed.

Lemma shape_of_rev (s batch_rev : list nat) (r c : nat) :
  rev s = c :: r :: batch_rev -> s = rev batch_rev ++ [r; c].
Proof.
  intros Hrev. rewrite <- (rev_involutive s), Hrev. cbn [rev].
  rewrite <- app_assoc. reflexivity.
Qed.

Lemma numel_app (s1 s2 : list nat) :
  numel (s1 ++ s2) = (numel s1 * numel s2)%nat.
Proof.
  induction s1 as [| a s1 IH]; cbn [numel fold_right app].
  - fold (numel s2). lia.
  - fold (numel (s1 ++ s2)). fold (numel s1). rewrite IH. lia.
Qed.

(** ** [pack_cov3d_triu] on every input *)

(** Trailing matrices of at least 3x3: the six entries are read with the
    stride of the input. *)
Lemma pack_cov3d_triu_wide (cov3d : Tensor) (batch : list nat) (r c : nat) :
  shape cov3d = batch ++ [r; c] ->
  (3 <= r)%nat -> (3 <= c)%nat ->
  pack_cov3d_triu cov3d =
  ret (mkTensor (batch ++ [6]%nat)
         (flat_map (fun b =>
            let e i j := nth (b * (r * c) + i * c + j) (data cov3d) 0 in
            [e 0 0; e 0 1; e 0 2; e 1 1; e 1 2; e 2 2]%nat)
            (seq 0 (numel batch)))
         (requires_grad cov3d)).
Proof.
  intros Hs Hr Hc. unfold pack_cov3d_triu, select_last2.
  replace (batch ++ [r; c]) with ((batch ++ [r]) ++ [c]) in Hs
    by (rewrite <- app_assoc; reflexivity).
  rewrite Hs, !rev_app_distr. cbn [rev app].
  destruct r as [| [| [| r]]]; try lia.
  destruct c as [| [| [| c]]]; try lia.
  cbn [Nat.ltb Nat.leb andb].
  rewrite rev_involutive, !bind_ret_l.
  unfold stack_last. cbn [forallb shape andb].
  rewrite shape_eqb_refl. cbn [andb List.length data requires_grad existsb].
  f_equal. f_equal.
  - apply flat_map_ext_seq. intros b Hb. cbn [map data].
    rewrite !nth_map_seq by exact Hb. reflexivity.
  - destruct (requires_grad cov3d); reflexivity.
Qed.

Lemma pack_cov3d_triu_narrow (cov3d : Tensor) (batch : list nat) (r c : nat) :
  shape cov3d = batch ++ [r; c] ->
  (r < 3)%nat \/ (c < 3)%nat ->
  pack_cov3d_triu cov3d = raise (IndexError "index out of bounds").
Proof.
  intros Hs Hsmall. unfold pack_cov3d_triu, select_last2.
  replace (batch ++ [r; c]) with ((batch ++ [r]) ++ [c]) in Hs
    by (rewrite <- app_assoc; reflexivity).
  rewrite Hs, !rev_app_distr. cbn [rev app].
  destruct r as [| [| [| r]]]; destruct c as [| [| [| c]]];
    try (exfalso; lia);
    cbn [Nat.ltb Nat.leb andb]; rewrite ?bind_ret_l; reflexivity.
Qed.

Lemma pack_cov3d_triu_low_rank (cov3d : Tensor) :
  (List.length (shape cov3d) < 2)%nat ->
  pack_cov3d_triu cov3d = raise (IndexError "too many indices for tensor").
Proof.
  intros Hrank. unfold pack_cov3d_triu, select_last2.
  rewrite <- length_rev in Hrank.
  destruct (rev (shape cov3d)) as [| c [| r batch_rev]];
    cbn [List.length] in Hrank; try lia; reflexivity.
Qed.

(** X1: what [pack_cov3d_triu] does on every tensor.  Below two dimensions
    the first index raises; with a trailing dimension below 3 an index is
    out of bounds; otherwise, whatever the trailing extents (3x3 or larger),
    the result has shape [batch + [6]] and holds entries (0,0), (0,1),
    (0,2), (1,1), (1,2), (2,2) of every trailing matrix. *)
Theorem pack_cov3d_triu_cases (cov3d : Tensor) :
  ((List.length (shape cov3d) < 2)%nat /\
   pack_cov3d_triu cov3d = raise (IndexError "too many indices for tensor"))
  \/
  (exists batch r c,
     shape cov3d = batch ++ [r; c] /\ ((r < 3)%nat \/ (c < 3)%nat) /\
     pack_cov3d_triu cov3d = raise (IndexError "index out of bounds"))
  \/
  (exists batch r c,
     shape cov3d = batch ++ [r; c] /\ (3 <= r)%nat /\ (3 <= c)%nat /\
     pack_cov3d_triu cov3d =
     ret (mkTensor (batch ++ [6]%nat)
            (flat_map (fun b =>
               let e i j := nth (b * (r * c) + i * c + j) (data cov3d) 0 in
               [e 0 0; e 0 1; e 0 2; e 1 1; e 1 2; e 2 2]%nat)
               (seq 0 (numel batch)))
            (requires_grad cov3d))).
Proof.
  destruct (rev (shape cov3d)) as [| c [| r batch_rev]] eqn:Hrev.
  - left. assert (Hlen : (List.length (shape cov3d) < 2)%nat)
      by (rewrite <- length_rev, Hrev; cbn; lia).
    split; [exact Hlen | apply pack_cov3d_triu_low_rank; exact Hlen].
  - left. assert (Hlen : (List.length (shape cov3d) < 2)%nat)
      by (rewrite <- length_rev, Hrev; cbn; lia).
    split; [exact Hlen | apply pack_cov3d_triu_low_rank; exact Hlen].
  - right. apply shape_of_rev in Hrev.
    destruct (le_lt_dec 3 r) as [Hr | Hr]; [destruct (le_lt_dec 3 c) as [Hc | Hc] |].
    + right. exists (rev batch_rev), r, c.
      repeat split; try assumption.
      apply pack_cov3d_triu_wide; assumption.
    + left. exists (rev batch_rev), r, c.
      split; [exact Hrev |]. split; [right; exact Hc |].
      apply (pack_cov3d_triu_narrow cov3d (rev batch_rev) r c Hrev). right. exact Hc.
    + left. exists (rev batch_rev), r, c.
      split; [exact Hrev |]. split; [left; exact Hr |].
      apply (pack_cov3d_triu_narrow cov3d (rev batch_rev) r c Hrev). left. exact Hr.
Qed.

(** A successful packing, read backwards. *)
Lemma pack_cov3d_triu_inv (cov3d packed : Tensor) :
  pack_cov3d_triu cov3d = ret packed ->
  exists batch r c,
    shape cov3d = batch ++ [r; c] /\ (3 <= r)%nat /\ (3 <= c)%nat /\
    packed =
    mkTensor (batch ++ [6]%nat)
      (flat_map (fun b =>
         let e i j := nth (b * (r * c) + i * c + j) (data cov3d) 0 in
         [e 0 0; e 0 1; e 0 2; e 1 1; e 1 2; e 2 2]%nat)
         (seq 0 (numel batch)))
      (requires_grad cov3d).
Proof.
  intros Hpack.
  destruct (rev (shape cov3d)) as [| c [| r batch_rev]] eqn:Hrev.
  - rewrite pack_cov3d_triu_low_rank in Hpack
      by (rewrite <- length_rev, Hrev; cbn; lia).
    discriminate Hpack.
  - rewrite pack_cov3d_triu_low_rank in Hpack
      by (rewrite <- length_rev, Hrev; cbn; lia).
    discriminate Hpack.
  - apply shape_of_rev in Hrev.
    destruct (le_lt_dec 3 r) as [Hr | Hr];
      [destruct (le_lt_dec 3 c) as [Hc | Hc] |].
    + rewrite (pack_cov3d_triu_wide cov3d _ r c Hrev Hr Hc) in Hpack.
      injection Hpack as <-.
      exists (rev batch_rev), r, c. repeat split; assumption.
    + rewrite (pack_cov3d_triu_narrow cov3d _ r c Hrev) in Hpack
        by (right; exact Hc).
      discriminate Hpack.
    + rewrite (pack_cov3d_triu_narrow cov3d _ r c Hrev) in Hpack
        by (left; exact Hr).
      discriminate Hpack.
Qed.

(** X2: whatever the contents of the input (even one with too few or too
    many scalars for its shape), a packed result is well formed: its shape
    is the batch shape followed by 6 and it holds exactly one scalar per
    position; it requires a gradient exactly when the input does. *)
Theorem pack_cov3d_triu_well_formed (cov3d packed : Tensor) :
  pack_cov3d_triu cov3d = ret packed ->
  wf_tensor packed /\
  requires_grad packed = requires_grad cov3d /\
  exists batch r c,
    shape cov3d = batch ++ [r; c] /\ shape packed = batch ++ [6]%nat.
Proof.
  intros Hpack.
  destruct (pack_cov3d_triu_inv cov3d packed Hpack)
    as (batch & r & c & Hs & _ & _ & ->).
  split; [| split].
  - unfold wf_tensor. cbn [data shape].
    rewrite (length_flat_map_rows _ 6) by (intros b; reflexivity).
    rewrite numel_app. reflexivity.
  - reflexivity.
  - exists batch, r, c. split; [exact Hs | reflexivity].
Qed.

Lemma pack_cov3d_triu_well_formed_witness :
  exists packed,
    pack_cov3d_triu Examples.sym_batch = ret packed /\
    wf_tensor packed /\
    requires_grad packed = requires_grad Examples.sym_batch /\
    exists batch r c,
      shape Examples.sym_batch = batch ++ [r; c] /\
      shape packed = batch ++ [6]%nat.
Proof.
  eexists. split.
  - apply (pack_cov3d_triu_batch Examples.sym_batch [2%nat]). reflexivity.
  - apply (pack_cov3d_triu_well_formed Examples.sym_batch).
    apply (pack_cov3d_triu_batch Examples.sym_batch [2%nat]). reflexivity.
Defined.

Lemma split_last_app (batch : list nat) (c : nat) :
  split_last (batch ++ [c]) = (batch, c).
Proof.
  unfold split_last. rewrite rev_app_distr. cbn [rev app].
  rewrite rev_involutive. reflexivity.
Qed.

(** [unpack_cov3d_triu] on a packed batch whose rows are given. *)
Lemma unpack_cov3d_triu_rows (batch : list nat) (six : nat -> list R)
    (rg : bool) :
  (forall b, List.length (six b) = 6%nat) ->
  unpack_cov3d_triu
    (mkTensor (batch ++ [6]%nat) (flat_map six (seq 0 (numel batch))) rg) =
  mkTensor (batch ++ [3; 3]%nat)
    (flat_map (fun b =>
       let e k := nth k (six b) 0 in
       [e 0; e 1; e 2; e 1; e 3; e 4; e 2; e 4; e 5]%nat)
       (seq 0 (numel batch)))
    rg.
Proof.
  intros Hsix. unfold unpack_cov3d_triu. cbn [shape data requires_grad].
  rewrite split_last_app. f_equal.
  apply flat_map_ext_seq. intros b Hb. cbv zeta.
  rewrite !(nth_flat_map_rows six 6 0 (numel batch) b) by (try lia; exact Hsix).
  reflexivity.
Qed.

(** X3: the round trip of C6 for a whole batch: a well-formed batch of
    symmetric 3x3 covariances is packed without error, and rebuilding the
    symmetric matrices from the packed tensor gives the batch back. *)
Theorem pack_unpack_batch (cov3d : Tensor) (batch : list nat) :
  shape cov3d = batch ++ [3; 3]%nat ->
  wf_tensor cov3d ->
  symmetric33 cov3d ->
  exists packed,
    pack_cov3d_triu cov3d = ret packed /\
    unpack_cov3d_triu packed = cov3d.
Proof.
  intros Hs Hwf Hsym.
  rewrite (pack_cov3d_triu_batch cov3d batch Hs).
  eexists. split; [reflexivity |].
  rewrite (unpack_cov3d_triu_rows batch
             (fun b =>
                [entry33 cov3d b 0 0; entry33 cov3d b 0 1;
                 entry33 cov3d b 0 2; entry33 cov3d b 1 1;
                 entry33 cov3d b 1 2; entry33 cov3d b 2 2]))
    by (intros b; reflexivity).
  unfold wf_tensor in Hwf. rewrite Hs, numel_app in Hwf.
  change (numel [3; 3]%nat) with 9%nat in Hwf.
  destruct cov3d as [s d rg]. cbn [shape data requires_grad] in *. subst s.
  f_equal.
  etransitivity; [| exact (flat_map_rows_id d 9 (numel batch) Hwf)].
  apply flat_map_ext_seq. intros b _. cbn [nth seq map].
  pose proof (Hsym b 1%nat 0%nat ltac:(lia) ltac:(lia)) as H10.
  pose proof (Hsym b 2%nat 0%nat ltac:(lia) ltac:(lia)) as H20.
  pose proof (Hsym b 2%nat 1%nat ltac:(lia) ltac:(lia)) as H21.
  unfold entry33 in *. cbn [data] in *.
  replace (b * 9 + 3)%nat with (b * 9 + 1 * 3 + 0)%nat by lia.
  replace (b * 9 + 6)%nat with (b * 9 + 2 * 3 + 0)%nat by lia.
  replace (b * 9 + 7)%nat with (b * 9 + 2 * 3 + 1)%nat by lia.
  rewrite H10, H20, H21.
  repeat (f_equal; try lia).
Qed.

Lemma symmetric33_sym_batch : symmetric33 Examples.sym_batch.
Proof.
  intros b i j Hi Hj. unfold entry33, Examples.sym_batch. cbn [data].
  destruct b as [| [| b]].
  - destruct i as [| [| [| i]]]; try lia;
      destruct j as [| [| [| j]]]; try lia; reflexivity.
  - destruct i as [| [| [| i]]]; try lia;
      destruct j as [| [| [| j]]]; try lia; reflexivity.
  - rewrite !nth_overflow by (cbn [List.length]; lia). reflexivity.
Qed.

Lemma pack_unpack_batch_witness :
  exists packed,
    pack_cov3d_triu Examples.sym_batch = ret packed /\
    unpack_cov3d_triu packed = Examples.sym_batch.
Proof.
  apply (pack_unpack_batch Examples.sym_batch [2%nat]).
  - reflexivity.
  - reflexivity.
  - exact symmetric33_sym_batch.
Defined.

(** X4: the other direction of the round trip: every well-formed packed
    tensor (shape batch + [6]) is what [pack_cov3d_triu] returns on the
    symmetric matrices rebuilt from it, so packing loses nothing of a
    symmetric batch and reaches every packed tensor. *)
Theorem unpack_pack_batch (packed : Tensor) (batch : list nat) :
  shape packed = batch ++ [6]%nat ->
  wf_tensor packed ->
  pack_cov3d_triu (unpack_cov3d_triu packed) = ret packed.
Proof.
  intros Hs Hwf. unfold wf_tensor in Hwf. rewrite Hs, numel_app in Hwf.
  change (numel [6]%nat) with 6%nat in Hwf.
  destruct packed as [s d rg]. cbn [shape data] in *. subst s.
  pose (six := fun b : nat => map (fun k => nth (b * 6 + k) d 0) (seq 0 6)).
  assert (Hd : d = flat_map six (seq 0 (numel batch)))
    by (symmetry; apply flat_map_rows_id; exact Hwf).
  rewrite Hd.
  rewrite (unpack_cov3d_triu_rows batch six rg) by (intros b; reflexivity).
  set (nine := fun b : nat =>
         let e k := nth k (six b) 0 in
         [e 0; e 1; e 2; e 1; e 3; e 4; e 2; e 4; e 5]%nat).
  rewrite (pack_cov3d_triu_batch
             (mkTensor (batch ++ [3; 3]%nat)
                (flat_map nine (seq 0 (numel batch))) rg)
             batch eq_refl).
  cbn [requires_grad]. do 2 f_equal.
  apply flat_map_ext_seq. intros b Hb. unfold entry33. cbn [data].
  replace (b * 9 + 0 * 3 + 0)%nat with (b * 9 + 0)%nat by lia.
  replace (b * 9 + 0 * 3 + 1)%nat with (b * 9 + 1)%nat by lia.
  replace (b * 9 + 0 * 3 + 2)%nat with (b * 9 + 2)%nat by lia.
  replace (b * 9 + 1 * 3 + 1)%nat with (b * 9 + 4)%nat by lia.
  replace (b * 9 + 1 * 3 + 2)%nat with (b * 9 + 5)%nat by lia.
  replace (b * 9 + 2 * 3 + 2)%nat with (b * 9 + 8)%nat by lia.
  rewrite !(nth_flat_map_rows nine 9 0 (numel batch) b)
    by (try lia; intros b'; reflexivity).
  reflexivity.
Qed.

Lemma unpack_pack_batch_witness :
  pack_cov3d_triu (unpack_cov3d_triu Examples.two_packed) =
  ret Examples.two_packed.
Proof.
  apply (unpack_pack_batch Examples.two_packed [2%nat]).
  - reflexivity.
  - reflexivity.
Defined.

(** X5: on batches of 3x3 matrices, two inputs are packed to the same
    tensor exactly when they agree on [requires_grad] and on every
    upper-triangular entry (diagonal included) of every matrix of the
    batch: the packing keeps all of the upper triangle and nothing else. *)
Theorem pack_cov3d_triu_equal_iff (cov3d cov3d' : Tensor)
    (batch : list nat) :
  shape cov3d = batch ++ [3; 3]%nat ->
  shape cov3d' = batch ++ [3; 3]%nat ->
  pack_cov3d_triu cov3d = pack_cov3d_triu cov3d' <->
  (requires_grad cov3d = requires_grad cov3d' /\
   forall b i j, (b < numel batch)%nat -> (i <= j)%nat -> (j < 3)%nat ->
     entry33 cov3d b i j = entry33 cov3d' b i j).
Proof.
  intros Hs Hs'.
  rewrite (pack_cov3d_triu_batch cov3d batch Hs).
  rewrite (pack_cov3d_triu_batch cov3d' batch Hs').
  set (six := fun t b =>
         [entry33 t b 0 0; entry33 t b 0 1; entry33 t b 0 2;
          entry33 t b 1 1; entry33 t b 1 2; entry33 t b 2 2]).
  change (ret (mkTensor (batch ++ [6]%nat)
                 (flat_map (six cov3d) (seq 0 (numel batch)))
                 (requires_grad cov3d)) =
          ret (mkTensor (batch ++ [6]%nat)
                 (flat_map (six cov3d') (seq 0 (numel batch)))
                 (requires_grad cov3d')) <->
          (requires_grad cov3d = requires_grad cov3d' /\
           forall b i j, (b < numel batch)%nat -> (i <= j)%nat ->
             (j < 3)%nat -> entry33 cov3d b i j = entry33 cov3d' b i j)).
  split.
  - intros Heq. injection Heq as Hdata Hrg. split; [exact Hrg |].
    intros b i j Hb Hij Hj.
    assert (Hk : forall k, (k < 6)%nat ->
               nth k (six cov3d b) 0 = nth k (six cov3d' b) 0).
    { intros k Hk.
      pose proof (nth_flat_map_rows (six cov3d) 6 0 (numel batch) b k
                    (fun _ => eq_refl) Hb Hk) as E.
      pose proof (nth_flat_map_rows (six cov3d') 6 0 (numel batch) b k
                    (fun _ => eq_refl) Hb Hk) as E'.
      cbn [Nat.add] in E, E'. rewrite <- E, <- E', Hdata. reflexivity. }
    destruct j as [| [| [| j]]]; try lia;
      destruct i as [| [| [| i]]]; try lia.
    + exact (Hk 0%nat ltac:(lia)).
    + exact (Hk 1%nat ltac:(lia)).
    + exact (Hk 3%nat ltac:(lia)).
    + exact (Hk 2%nat ltac:(lia)).
    + exact (Hk 4%nat ltac:(lia)).
    + exact (Hk 5%nat ltac:(lia)).
  - intros [Hrg Hup]. rewrite Hrg. do 2 f_equal.
    apply flat_map_ext_seq. intros b Hb. unfold six.
    rewrite !(Hup b) by lia. reflexivity.
Qed.

Lemma pack_cov3d_triu_equal_iff_witness :
  pack_cov3d_triu (Examples.one_cov 0) = pack_cov3d_triu (Examples.one_cov 7)
  <->
  (requires_grad (Examples.one_cov 0) = requires_grad (Examples.one_cov 7) /\
   forall b i j, (b < numel [1%nat])%nat -> (i <= j)%nat -> (j < 3)%nat ->
     entry33 (Examples.one_cov 0) b i j = entry33 (Examples.one_cov 7) b i j).
Proof.
  apply (pack_cov3d_triu_equal_iff (Examples.one_cov 0) (Examples.one_cov 7)
           [1%nat]).
  - reflexivity.
  - reflexivity.
Defined.

(** ** [forward] on every input *)

Lemma shape_cases (s : list nat) :
  (List.length s < 2)%nat \/ exists batch n d, s = batch ++ [n; d].
Proof.
  destruct (rev s) as [| d [| n batch_rev]] eqn:Hrev.
  - left. rewrite <- length_rev, Hrev. cbn. lia.
  - left. rewrite <- length_rev, Hrev. cbn. lia.
  - right. exists (rev batch_rev), n, d. apply shape_of_rev. exact Hrev.
Qed.

Section ForwardCases.
Context `{Backend}.

Lemma forward_bad_shape_raises
    (means3d cov3d_triu viewmat : Tensor) (batch : list nat) (n d : nat)
    (fx fy cx cy : R) (img_height img_width block_width : Z)
    (clip_thresh : R) :
  shape means3d = batch ++ [n; d] ->
  (n < 1)%nat \/ d <> 3%nat ->
  _ProjectGaussians.forward means3d cov3d_triu viewmat fx fy cx cy
    img_height img_width block_width clip_thresh =
  raise (ValueError "Invalid shape for means3d: " (shape means3d)).
Proof.
  intros Hs Hbad. unfold _ProjectGaussians.forward.
  rewrite Hs, shape_index_num_points, bind_ret_l.
  destruct (n <? 1)%nat eqn:Hn.
  - rewrite bind_ret_l. reflexivity.
  - rewrite shape_index_last_dim, !bind_ret_l.
    apply Nat.ltb_ge in Hn.
    destruct Hbad as [Hlt | Hd]; [lia |].
    apply Nat.eqb_neq in Hd. rewrite Hd. reflexivity.
Qed.

(** [forward] on a well-shaped [means3d], with the context it leaves. *)
Lemma forward_run
    (means3d cov3d_triu viewmat : Tensor) (batch : list nat) (n : nat)
    (fx fy cx cy : R) (img_height img_width block_width : Z)
    (clip_thresh : R)
    (xys depths radii conics compensation num_tiles_hit : Tensor) :
  shape means3d = batch ++ [n; 3%nat] ->
  (1 <= n)%nat ->
  project_gaussians_forward n means3d cov3d_triu viewmat fx fy cx cy
    img_height img_width block_width clip_thresh =
  (xys, depths, radii, conics, compensation, num_tiles_hit) ->
  _ProjectGaussians.forward means3d cov3d_triu viewmat fx fy cx cy
    img_height img_width block_width clip_thresh =
  ([EvProjectForward n means3d cov3d_triu viewmat fx fy cx cy
      img_height img_width block_width clip_thresh],
   inr (mkCtx img_height img_width n fx fy cx cy
          (means3d, viewmat, cov3d_triu, radii, conics, compensation),
        (xys, depths, radii, conics, compensation, num_tiles_hit))).
Proof.
  intros Hs Hn Hk. unfold _ProjectGaussians.forward.
  rewrite Hs, shape_index_num_points, bind_ret_l.
  replace (n <? 1)%nat with false by (symmetry; apply Nat.ltb_ge; lia).
  rewrite shape_index_last_dim, !bind_ret_l. cbn [Nat.eqb negb].
  rewrite bind_emit, Hk. reflexivity.
Qed.

(** X6: [forward] returns exactly when [means3d] has at least two
    dimensions, at least one row and a last dimension of 3; nothing else
    (the shapes of [cov3d_triu] and [viewmat], [block_width], the image
    size) is looked at. *)
Theorem forward_returns_iff
    (means3d cov3d_triu viewmat : Tensor)
    (fx fy cx cy : R) (img_height img_width block_width : Z)
    (clip_thresh : R) :
  (exists r,
     outcome (_ProjectGaussians.forward means3d cov3d_triu viewmat
                fx fy cx cy img_height img_width block_width clip_thresh)
     = inr r)
  <->
  (exists batch n, shape means3d = batch ++ [n; 3%nat] /\ (1 <= n)%nat).
Proof.
  split.
  - intros [r Hr].
    destruct (shape_cases (shape means3d)) as [Hlow | (batch & n & d & Hs)].
    + rewrite (forward_low_rank _ _ _ _ _ _ _ _ _ _ _ Hlow) in Hr.
      discriminate Hr.
    + destruct (le_lt_dec 1 n) as [Hn | Hn];
        [destruct (Nat.eq_dec d 3) as [-> | Hd] |].
      * exists batch, n. split; assumption.
      * rewrite (forward_bad_shape_raises means3d cov3d_triu viewmat
                   batch n d fx fy cx cy img_height img_width block_width
                   clip_thresh Hs (or_intror Hd)) in Hr.
        discriminate Hr.
      * rewrite (forward_bad_shape_raises means3d cov3d_triu viewmat
                   batch n d fx fy cx cy img_height img_width block_width
                   clip_thresh Hs (or_introl Hn)) in Hr.
        discriminate Hr.
  - intros (batch & n & Hs & Hn).
    destruct (forward_accepts means3d cov3d_triu viewmat batch n
                fx fy cx cy img_height img_width block_width clip_thresh
                Hs Hn) as [ctx [-> _]].
    eexists. reflexivity.
Qed.

(** X7: a failing [forward] has made no kernel call, and it fails in one
    of two ways only: the [IndexError] of reading [shape[-2]] off a tensor
    of fewer than two dimensions, or the [ValueError] that carries the
    shape of [means3d]. *)
Theorem forward_failure_modes
    (means3d cov3d_triu viewmat : Tensor)
    (fx fy cx cy : R) (img_height img_width block_width : Z)
    (clip_thresh : R) (e : exn) :
  outcome (_ProjectGaussians.forward means3d cov3d_triu viewmat
             fx fy cx cy img_height img_width block_width clip_thresh)
  = inl e ->
  calls (_ProjectGaussians.forward means3d cov3d_triu viewmat
           fx fy cx cy img_height img_width block_width clip_thresh)
  = [] /\
  ((List.length (shape means3d) < 2)%nat /\
   e = IndexError "tuple index out of range"
   \/
   (2 <= List.length (shape means3d))%nat /\
   e = ValueError "Invalid shape for means3d: " (shape means3d)).
Proof.
  intros He.
  destruct (shape_cases (shape means3d)) as [Hlow | (batch & n & d & Hs)].
  - rewrite (forward_low_rank _ _ _ _ _ _ _ _ _ _ _ Hlow) in *.
    cbn in He. injection He as <-.
    split; [reflexivity |]. left. split; [exact Hlow | reflexivity].
  - assert (Hrank : (2 <= List.length (shape means3d))%nat)
      by (rewrite Hs, length_app; cbn; lia).
    destruct (le_lt_dec 1 n) as [Hn | Hn];
      [destruct (Nat.eq_dec d 3) as [-> | Hd] |].
    + destruct (forward_accepts means3d cov3d_triu viewmat batch n
                  fx fy cx cy img_height img_width block_width clip_thresh
                  Hs Hn) as [ctx [Hrun _]].
      rewrite Hrun in He. discriminate He.
    + rewrite (forward_bad_shape_raises means3d cov3d_triu viewmat
                 batch n d fx fy cx cy img_height img_width block_width
                 clip_thresh Hs (or_intror Hd)) in *.
      cbn in He. injection He as <-.
      split; [reflexivity |]. right. split; [exact Hrank | reflexivity].
    + rewrite (forward_bad_shape_raises means3d cov3d_triu viewmat
                 batch n d fx fy cx cy img_height img_width block_width
                 clip_thresh Hs (or_introl Hn)) in *.
      cbn in He. injection He as <-.
      split; [reflexivity |]. right. split; [exact Hrank | reflexivity].
Qed.

End ForwardCases.

Lemma forward_failure_modes_witness :
  let run :=
    _ProjectGaussians.forward (H := Examples.backend) Examples.no_means
      Examples.one_packed (Examples.eye4 false) 1 1 16 16 32 32 16 (1 / 100)
  in
  calls run = [] /\
  ((List.length (shape Examples.no_means) < 2)%nat /\
   ValueError "Invalid shape for means3d: " [0; 3]%nat =
   IndexError "tuple index out of range"
   \/
   (2 <= List.length (shape Examples.no_means))%nat /\
   ValueError "Invalid shape for means3d: " [0; 3]%nat =
   ValueError "Invalid shape for means3d: " (shape Examples.no_means)).
Proof.
  apply (forward_failure_modes (H := Examples.backend) Examples.no_means
           Examples.one_packed (Examples.eye4 false) 1 1 16 16 32 32 16
           (1 / 100)).
  rewrite (forward_bad_shape_raises (H := Examples.backend)
             Examples.no_means Examples.one_packed (Examples.eye4 false)
             [] 0 3 1 1 16 16 32 32 16 (1 / 100) eq_refl
             (or_introl (Nat.lt_0_1))).
  reflexivity.
Defined.

(** ** [backward] on every context *)

Lemma slice_3x3_low_rank (t : Tensor) :
  (List.length (shape t) < 2)%nat ->
  slice_3x3 t = raise (IndexError "too many indices for tensor").
Proof.
  intros Hrank. unfold slice_3x3. rewrite <- length_rev in Hrank.
  destruct (rev (shape t)) as [| c [| r batch_rev]];
    cbn [List.length] in Hrank; try lia; reflexivity.
Qed.

Section BackwardCases.
Context `{Backend}.

(** The reverse pass when the view matrix is tracked but cannot be
    sliced. *)
Lemma backward_low_rank_run
    (ih iw : Z) (n : nat) (fx fy cx cy : R)
    (means3d viewmat cov3d_triu radii conics compensation : Tensor)
    (v_xys v_depths : Tensor) (v_radii : option Tensor)
    (v_conics v_compensation : Tensor) (v_num_tiles_hit : option Tensor) :
  requires_grad viewmat = true ->
  (List.length (shape viewmat) < 2)%nat ->
  _ProjectGaussians.backward
    (mkCtx ih iw n fx fy cx cy
       (means3d, viewmat, cov3d_triu, radii, conics, compensation))
    v_xys v_depths v_radii v_conics v_compensation v_num_tiles_hit =
  ([EvProjectBackward n means3d cov3d_triu viewmat fx fy cx cy ih iw
      radii conics compensation v_xys v_depths v_conics v_compensation],
   inl (IndexError "too many indices for tensor")).
Proof.
  intros Hrg Hrank. unfold _ProjectGaussians.backward.
  cbn [saved_tensors ctx_num_points ctx_fx ctx_fy ctx_cx ctx_cy
       ctx_img_height ctx_img_width].
  rewrite bind_emit.
  destruct (project_gaussians_backward n means3d cov3d_triu viewmat
              fx fy cx cy ih iw radii conics compensation
              v_xys v_depths v_conics v_compensation)
    as [[v_cov2d v_cov3d] v_mean3d].
  rewrite Hrg, (slice_3x3_low_rank viewmat Hrank). reflexivity.
Qed.

(** X8: the reverse pass after a forward pass.  On a well-shaped
    [means3d], [forward] returns a context with which every [backward]
    makes exactly one kernel call: on the tensors and camera scalars that
    [forward] received and on the radii, conics and compensation that the
    forward kernel produced, together with the incoming gradients of xys,
    depths, conics and compensation. *)
Theorem backward_after_forward
    (means3d cov3d_triu viewmat : Tensor) (batch : list nat) (n : nat)
    (fx fy cx cy : R) (img_height img_width block_width : Z)
    (clip_thresh : R) :
  shape means3d = batch ++ [n; 3%nat] ->
  (1 <= n)%nat ->
  exists ctx xys depths radii conics compensation num_tiles_hit,
    project_gaussians_forward n means3d cov3d_triu viewmat fx fy cx cy
      img_height img_width block_width clip_thresh =
    (xys, depths, radii, conics, compensation, num_tiles_hit) /\
    outcome (_ProjectGaussians.forward means3d cov3d_triu viewmat
               fx fy cx cy img_height img_width block_width clip_thresh) =
    inr (ctx, (xys, depths, radii, conics, compensation, num_tiles_hit)) /\
    forall v_xys v_depths v_radii v_conics v_compensation v_num_tiles_hit,
      calls (_ProjectGaussians.backward ctx v_xys v_depths v_radii
               v_conics v_compensation v_num_tiles_hit) =
      [EvProjectBackward n means3d cov3d_triu viewmat fx fy cx cy
         img_height img_width radii conics compensation
         v_xys v_depths v_conics v_compensation].
Proof.
  intros Hs Hn.
  destruct (project_gaussians_forward n means3d cov3d_triu viewmat
              fx fy cx cy img_height img_width block_width clip_thresh)
    as [[[[[xys depths] radii] conics] comp] tiles] eqn:Hk.
  rewrite (forward_run means3d cov3d_triu viewmat batch n fx fy cx cy
             img_height img_width block_width clip_thresh
             xys depths radii conics comp tiles Hs Hn Hk).
  do 7 eexists. split; [reflexivity |]. split; [reflexivity |].
  intros v_xys v_depths v_radii v_conics v_compensation v_num_tiles_hit.
  destruct (project_gaussians_backward n means3d cov3d_triu viewmat
              fx fy cx cy img_height img_width radii conics comp
              v_xys v_depths v_conics v_compensation)
    as [[v_cov2d v_cov3d] v_mean3d] eqn:Hb.
  destruct (requires_grad viewmat) eqn:Hrg;
    [destruct (le_lt_dec 2 (List.length (shape viewmat))) as [Hrank | Hrank] |].
  - rewrite (backward_run img_height img_width n fx fy cx cy means3d
               viewmat cov3d_triu radii conics comp v_xys v_depths v_radii
               v_conics v_compensation v_num_tiles_hit
               v_cov2d v_cov3d v_mean3d (or_intror Hrank) Hb).
    reflexivity.
  - rewrite (backward_low_rank_run img_height img_width n fx fy cx cy
               means3d viewmat cov3d_triu radii conics comp v_xys v_depths
               v_radii v_conics v_compensation v_num_tiles_hit Hrg Hrank).
    reflexivity.
  - rewrite (backward_run img_height img_width n fx fy cx cy means3d
               viewmat cov3d_triu radii conics comp v_xys v_depths v_radii
               v_conics v_compensation v_num_tiles_hit
               v_cov2d v_cov3d v_mean3d (or_introl Hrg) Hb).
    reflexivity.
Qed.

(** X9: [backward] returns exactly when the saved view matrix needs no
    gradient or has at least two dimensions. *)
Theorem backward_returns_iff
    (ctx : Ctx) (v_xys v_depths : Tensor) (v_radii : option Tensor)
    (v_conics v_compensation : Tensor) (v_num_tiles_hit : option Tensor) :
  (exists g,
     outcome (_ProjectGaussians.backward ctx v_xys v_depths v_radii
                v_conics v_compensation v_num_tiles_hit) = inr g)
  <->
  (requires_grad (saved_viewmat ctx) = false \/
   (2 <= List.length (shape (saved_viewmat ctx)))%nat).
Proof.
  destruct ctx as [ih iw n fx fy cx cy
                   [[[[[means3d viewmat] cov3d_triu] radii] conics] comp]].
  cbn [saved_viewmat saved_tensors].
  destruct (project_gaussians_backward n means3d cov3d_triu viewmat
              fx fy cx cy ih iw radii conics comp
              v_xys v_depths v_conics v_compensation)
    as [[v_cov2d v_cov3d] v_mean3d] eqn:Hb.
  split.
  - intros [g Hg].
    destruct (requires_grad viewmat) eqn:Hrg; [| left; reflexivity].
    destruct (le_lt_dec 2 (List.length (shape viewmat))) as [Hrank | Hrank];
      [right; exact Hrank |].
    rewrite (backward_low_rank_run ih iw n fx fy cx cy means3d viewmat
               cov3d_triu radii conics comp v_xys v_depths v_radii
               v_conics v_compensation v_num_tiles_hit Hrg Hrank) in Hg.
    discriminate Hg.
  - intros Hview.
    rewrite (backward_run ih iw n fx fy cx cy means3d viewmat cov3d_triu
               radii conics comp v_xys v_depths v_radii v_conics
               v_compensation v_num_tiles_hit v_cov2d v_cov3d v_mean3d
               Hview Hb).
    eexists. reflexivity.
Qed.

(** X10: when the saved view matrix requires a gradient but has fewer
    than two dimensions, [backward] raises the [IndexError] of
    [viewmat[..., :3, :3]], and it does so after the backward kernel has
    already been called. *)
Theorem backward_fails_after_kernel
    (ih iw : Z) (n : nat) (fx fy cx cy : R)
    (means3d viewmat cov3d_triu radii conics compensation : Tensor)
    (v_xys v_depths : Tensor) (v_radii : option Tensor)
    (v_conics v_compensation : Tensor) (v_num_tiles_hit : option Tensor) :
  requires_grad viewmat = true ->
  (List.length (shape viewmat) < 2)%nat ->
  let run :=
    _ProjectGaussians.backward
      (mkCtx ih iw n fx fy cx cy
         (means3d, viewmat, cov3d_triu, radii, conics, compensation))
      v_xys v_depths v_radii v_conics v_compensation v_num_tiles_hit in
  outcome run = inl (IndexError "too many indices for tensor") /\
  calls run =
  [EvProjectBackward n means3d cov3d_triu viewmat fx fy cx cy ih iw
     radii conics compensation v_xys v_depths v_conics v_compensation].
Proof.
  intros Hrg Hrank run. subst run.
  rewrite (backward_low_rank_run ih iw n fx fy cx cy means3d viewmat
             cov3d_triu radii conics compensation v_xys v_depths v_radii
             v_conics v_compensation v_num_tiles_hit Hrg Hrank).
  split; reflexivity.
Qed.

(** X11: the gradient returned for a view matrix that requires one is a
    fresh tensor of the view matrix's shape and size whose entries are all
    zero, whatever the incoming gradients are. *)
Theorem backward_viewmat_gradient_is_zero
    (ctx : Ctx) (v_xys v_depths : Tensor) (v_radii : option Tensor)
    (v_conics v_compensation : Tensor) (v_num_tiles_hit : option Tensor) :
  requires_grad (saved_viewmat ctx) = true ->
  (2 <= List.length (shape (saved_viewmat ctx)))%nat ->
  exists v_mean3d v_cov3d g,
    outcome (_ProjectGaussians.backward ctx v_xys v_depths v_radii
               v_conics v_compensation v_num_tiles_hit) =
    inr (v_mean3d, v_cov3d, Some g,
         None, None, None, None, None, None, None, None) /\
    shape g = shape (saved_viewmat ctx) /\
    List.length (data g) = List.length (data (saved_viewmat ctx)) /\
    (forall k, nth k (data g) 0 = 0) /\
    requires_grad g = false.
Proof.
  destruct ctx as [ih iw n fx fy cx cy
                   [[[[[means3d viewmat] cov3d_triu] radii] conics] comp]].
  cbn [saved_viewmat saved_tensors]. intros Hrg Hrank.
  destruct (project_gaussians_backward n means3d cov3d_triu viewmat
              fx fy cx cy ih iw radii conics comp
              v_xys v_depths v_conics v_compensation)
    as [[v_cov2d v_cov3d] v_mean3d] eqn:Hb.
  rewrite (backward_run ih iw n fx fy cx cy means3d viewmat cov3d_triu
             radii conics comp v_xys v_depths v_radii v_conics
             v_compensation v_num_tiles_hit v_cov2d v_cov3d v_mean3d
             (or_intror Hrank) Hb).
  rewrite Hrg. do 3 eexists. split; [reflexivity |].
  unfold zeros_like. cbn [shape data requires_grad].
  split; [reflexivity |]. split; [apply repeat_length |].
  split; [| reflexivity].
  intros k. destruct (le_lt_dec (List.length (data viewmat)) k) as [Hk | Hk].
  - apply nth_overflow. rewrite repeat_length. exact Hk.
  - apply nth_repeat_lt. exact Hk.
Qed.

End BackwardCases.

Lemma backward_after_forward_witness :
  exists ctx xys depths radii conics compensation num_tiles_hit,
    project_gaussians_forward (Backend := Examples.backend) 1
      Examples.one_mean Examples.one_packed (Examples.eye4 false)
      1 1 16 16 32 32 16 (1 / 100) =
    (xys, depths, radii, conics, compensation, num_tiles_hit) /\
    outcome (_ProjectGaussians.forward (H := Examples.backend)
               Examples.one_mean Examples.one_packed (Examples.eye4 false)
               1 1 16 16 32 32 16 (1 / 100)) =
    inr (ctx, (xys, depths, radii, conics, compensation, num_tiles_hit)) /\
    forall v_xys v_depths v_radii v_conics v_compensation v_num_tiles_hit,
      calls (_ProjectGaussians.backward (H := Examples.backend) ctx
               v_xys v_depths v_radii v_conics v_compensation
               v_num_tiles_hit) =
      [EvProjectBackward 1 Examples.one_mean Examples.one_packed
         (Examples.eye4 false) 1 1 16 16 32 32 radii conics compensation
         v_xys v_depths v_conics v_compensation].
Proof.
  apply (backward_after_forward (H := Examples.backend) Examples.one_mean
           Examples.one_packed (Examples.eye4 false) [] 1).
  - reflexivity.
  - lia.
Defined.

Lemma backward_fails_after_kernel_witness :
  let run :=
    _ProjectGaussians.backward (H := Examples.backend)
      (mkCtx 32 32 1 1 1 16 16
         (Examples.one_mean, Examples.flat_view, Examples.one_packed,
          mkTensor [1]%nat [1] false, mkTensor [1; 3]%nat [1; 0; 1] false,
          mkTensor [1]%nat [1] false))
      (mkTensor [1; 2]%nat [1; 1] false) (mkTensor [1]%nat [1] false) None
      (mkTensor [1; 3]%nat [1; 1; 1] false) (mkTensor [1]%nat [1] false)
      None in
  outcome run = inl (IndexError "too many indices for tensor") /\
  calls run =
  [EvProjectBackward 1 Examples.one_mean Examples.one_packed
     Examples.flat_view 1 1 16 16 32 32
     (mkTensor [1]%nat [1] false) (mkTensor [1; 3]%nat [1; 0; 1] false)
     (mkTensor [1]%nat [1] false)
     (mkTensor [1; 2]%nat [1; 1] false) (mkTensor [1]%nat [1] false)
     (mkTensor [1; 3]%nat [1; 1; 1] false) (mkTensor [1]%nat [1] false)].
Proof.
  apply (backward_fails_after_kernel (H := Examples.backend)).
  - reflexivity.
  - cbn. lia.
Defined.

Lemma backward_viewmat_gradient_is_zero_witness :
  exists v_mean3d v_cov3d g,
    outcome (_ProjectGaussians.backward (H := Examples.backend)
               (Examples.example_ctx true)
               (mkTensor [1; 2]%nat [1; 1] false)
               (mkTensor [1]%nat [1] false) None
               (mkTensor [1; 3]%nat [1; 1; 1] false)
               (mkTensor [1]%nat [1] false) None) =
    inr (v_mean3d, v_cov3d, Some g,
         None, None, None, None, None, None, None, None) /\
    shape g = [4; 4]%nat /\
    List.length (data g) = 16%nat /\
    (forall k, nth k (data g) 0 = 0) /\
    requires_grad g = false.
Proof.
  apply (backward_viewmat_gradient_is_zero (H := Examples.backend)
           (Examples.example_ctx true)).
  - reflexivity.
  - cbn. lia.
Defined.

(** ** The entry points on every input *)

Section EntryPointCases.
Context `{Backend}.

Lemma given_cov3d_pack_fails
    (means3d cov3d viewmat : Tensor) (fx fy cx cy : R)
    (img_height img_width block_width : Z) (clip_thresh : R) (e : exn) :
  pack_cov3d_triu cov3d = raise e ->
  project_gaussians_given_cov3d means3d cov3d viewmat fx fy cx cy
    img_height img_width block_width clip_thresh = raise e.
Proof.
  intros Hp. unfold project_gaussians_given_cov3d. rewrite Hp. reflexivity.
Qed.

Lemma given_cov3d_forward_fails
    (means3d cov3d viewmat cov3d_triu : Tensor) (fx fy cx cy : R)
    (img_height img_width block_width : Z) (clip_thresh : R) (e : exn) :
  pack_cov3d_triu cov3d = ret cov3d_triu ->
  _ProjectGaussians.forward means3d cov3d_triu viewmat fx fy cx cy
    img_height img_width block_width clip_thresh = raise e ->
  project_gaussians_given_cov3d means3d cov3d viewmat fx fy cx cy
    img_height img_width block_width clip_thresh = raise e.
Proof.
  intros Hp Hf. unfold project_gaussians_given_cov3d.
  rewrite Hp, bind_ret_l. unfold _ProjectGaussians.apply, contiguous.
  rewrite Hf. reflexivity.
Qed.

Lemma given_cov3d_packed_run
    (means3d cov3d viewmat cov3d_triu : Tensor) (batch : list nat) (n : nat)
    (fx fy cx cy : R) (img_height img_width block_width : Z)
    (clip_thresh : R)
    (xys depths radii conics comp num_tiles_hit : Tensor) :
  pack_cov3d_triu cov3d = ret cov3d_triu ->
  shape means3d = batch ++ [n; 3%nat] ->
  (1 <= n)%nat ->
  project_gaussians_forward n means3d cov3d_triu viewmat fx fy cx cy
    img_height img_width block_width clip_thresh =
  (xys, depths, radii, conics, comp, num_tiles_hit) ->
  project_gaussians_given_cov3d means3d cov3d viewmat fx fy cx cy
    img_height img_width block_width clip_thresh =
  ([EvProjectForward n means3d cov3d_triu viewmat fx fy cx cy
      img_height img_width block_width clip_thresh],
   inr (xys, depths, radii, conics, comp, num_tiles_hit, cov3d)).
Proof.
  intros Hp Hs Hn Hk. unfold project_gaussians_given_cov3d.
  rewrite Hp, bind_ret_l. unfold _ProjectGaussians.apply, contiguous.
  rewrite (forward_run means3d cov3d_triu viewmat batch n fx fy cx cy
             img_height img_width block_width clip_thresh
             xys depths radii conics comp num_tiles_hit Hs Hn Hk).
  reflexivity.
Qed.

(** Every call of [project_gaussians_given_cov3d] either fails before the
    kernel or makes one kernel call and returns. *)
Lemma given_cov3d_cases
    (means3d cov3d viewmat : Tensor) (fx fy cx cy : R)
    (img_height img_width block_width : Z) (clip_thresh : R) :
  let run :=
    project_gaussians_given_cov3d means3d cov3d viewmat fx fy cx cy
      img_height img_width block_width clip_thresh in
  (exists e,
     run = raise e /\
     (e = IndexError "too many indices for tensor" \/
      e = IndexError "index out of bounds" \/
      e = IndexError "tuple index out of range" \/
      e = ValueError "Invalid shape for means3d: " (shape means3d)) /\
     ((forall cbatch r c,
         shape cov3d = cbatch ++ [r; c] -> (r < 3)%nat \/ (c < 3)%nat) \/
      (forall batch n, shape means3d = batch ++ [n; 3%nat] -> (n < 1)%nat)))
  \/
  (exists cbatch r c batch n cov3d_triu,
     shape cov3d = cbatch ++ [r; c] /\ (3 <= r)%nat /\ (3 <= c)%nat /\
     shape means3d = batch ++ [n; 3%nat] /\ (1 <= n)%nat /\
     pack_cov3d_triu cov3d = ret cov3d_triu /\
     run =
     ([EvProjectForward n means3d cov3d_triu viewmat fx fy cx cy
         img_height img_width block_width clip_thresh],
      inr (project_gaussians_forward n means3d cov3d_triu viewmat
             fx fy cx cy img_height img_width block_width clip_thresh,
           cov3d))).
Proof.
  intros run. subst run.
  destruct (shape_cases (shape cov3d)) as [Hlow | (cbatch & r & c & Hc)].
  { left. eexists. split;
      [apply given_cov3d_pack_fails, pack_cov3d_triu_low_rank; exact Hlow |].
    split; [left; reflexivity |].
    left. intros cb r c Hs. rewrite Hs, length_app in Hlow. cbn in Hlow. lia. }
  assert (Hsmall_all : (r < 3)%nat \/ (c < 3)%nat ->
            forall cb r' c', shape cov3d = cb ++ [r'; c'] ->
              (r' < 3)%nat \/ (c' < 3)%nat).
  { intros Hsmall cb r' c' Hs. rewrite Hc in Hs.
    replace (cbatch ++ [r; c]) with ((cbatch ++ [r]) ++ [c]) in Hs
      by (rewrite <- app_assoc; reflexivity).
    replace (cb ++ [r'; c']) with ((cb ++ [r']) ++ [c']) in Hs
      by (rewrite <- app_assoc; reflexivity).
    apply app_inj_tail in Hs. destruct Hs as [Hs ->].
    apply app_inj_tail in Hs. destruct Hs as [_ ->]. exact Hsmall. }
  destruct (le_lt_dec 3 r) as [Hr | Hr];
    [destruct (le_lt_dec 3 c) as [Hc3 | Hc3] |].
  2: { left. eexists. split;
         [apply given_cov3d_pack_fails;
          apply (pack_cov3d_triu_narrow cov3d cbatch r c Hc); right; exact Hc3 |].
       split; [right; left; reflexivity |].
       left. apply Hsmall_all. right. exact Hc3. }
  2: { left. eexists. split;
         [apply given_cov3d_pack_fails;
          apply (pack_cov3d_triu_narrow cov3d cbatch r c Hc); left; exact Hr |].
       split; [right; left; reflexivity |].
       left. apply Hsmall_all. left. exact Hr. }
  pose proof (pack_cov3d_triu_wide cov3d cbatch r c Hc Hr Hc3) as Hp.
  set (triu := mkTensor _ _ _) in Hp.
  destruct (shape_cases (shape means3d)) as [Hlow | (batch & n & d & Hs)].
  { left. eexists. split;
      [apply (given_cov3d_forward_fails _ _ _ triu _ _ _ _ _ _ _ _ _ Hp);
       apply forward_low_rank; exact Hlow |].
    split; [right; right; left; reflexivity |].
    right. intros b n Hs. rewrite Hs, length_app in Hlow. cbn in Hlow. lia. }
  assert (Hbad_all : (n < 1)%nat \/ d <> 3%nat ->
            forall b n', shape means3d = b ++ [n'; 3%nat] -> (n' < 1)%nat).
  { intros Hbad b n' Hs'. rewrite Hs in Hs'.
    replace (batch ++ [n; d]) with ((batch ++ [n]) ++ [d]) in Hs'
      by (rewrite <- app_assoc; reflexivity).
    replace (b ++ [n'; 3%nat]) with ((b ++ [n']) ++ [3%nat]) in Hs'
      by (rewrite <- app_assoc; reflexivity).
    apply app_inj_tail in Hs'. destruct Hs' as [Hs' ->].
    apply app_inj_tail in Hs'. destruct Hs' as [_ ->].
    destruct Hbad as [Hn | Hd]; [exact Hn | contradiction]. }
  destruct (le_lt_dec 1 n) as [Hn | Hn];
    [destruct (Nat.eq_dec d 3) as [-> | Hd] |].
  - right. exists cbatch, r, c, batch, n, triu.
    repeat (split; [assumption |]).
    destruct (project_gaussians_forward n means3d triu viewmat fx fy cx cy
                img_height img_width block_width clip_thresh)
      as [[[[[xys depths] radii] conics] comp] tiles] eqn:Hk.
    apply (given_cov3d_packed_run means3d cov3d viewmat triu batch n
             fx fy cx cy img_height img_width block_width clip_thresh
             xys depths radii conics comp tiles Hp Hs Hn Hk).
  - left. eexists. split;
      [apply (given_cov3d_forward_fails _ _ _ triu _ _ _ _ _ _ _ _ _ Hp);
       apply (forward_bad_shape_raises means3d triu viewmat batch n d);
       [exact Hs | right; exact Hd] |].
    split; [right; right; right; reflexivity |].
    right. apply Hbad_all. right. exact Hd.
  - left. eexists. split;
      [apply (given_cov3d_forward_fails _ _ _ triu _ _ _ _ _ _ _ _ _ Hp);
       apply (forward_bad_shape_raises means3d triu viewmat batch n d);
       [exact Hs | left; exact Hn] |].
    split; [right; right; right; reflexivity |].
    right. apply Hbad_all. left. exact Hn.
Qed.

End EntryPointCases.

Section EntryPointExtras.
Context `{Backend}.

(** X12: [project_gaussians] stops with the assertion on the tile side,
    before any call, exactly when [block_width] lies outside [2, 16]; this
    assertion comes first, whatever the quaternions are. *)
Theorem project_gaussians_block_width_iff
    (means3d scales : Tensor) (glob_scale : R) (quats viewmat : Tensor)
    (fx fy cx cy : R) (img_height img_width block_width : Z)
    (clip_thresh : R) :
  project_gaussians means3d scales glob_scale quats viewmat fx fy cx cy
    img_height img_width block_width clip_thresh =
  ([], inl (AssertionError "block_width must be between 2 and 16"))
  <->
  (block_width < 2 \/ 16 < block_width)%Z.
Proof.
  split.
  - intros Hrun.
    destruct (Z_lt_dec block_width 2) as [Hlo | Hlo]; [left; exact Hlo |].
    destruct (Z_lt_dec 16 block_width) as [Hhi | Hhi]; [right; exact Hhi |].
    exfalso.
    assert (Hbw : (1 < block_width <= 16)%Z) by lia.
    destruct (quats_normalized quats) eqn:Hq.
    + rewrite (project_gaussians_checked means3d scales glob_scale quats
                 viewmat fx fy cx cy img_height img_width block_width
                 clip_thresh Hbw Hq) in Hrun.
      discriminate Hrun.
    + rewrite (project_gaussians_rejects_long_quats means3d scales
                 glob_scale quats viewmat fx fy cx cy img_height img_width
                 block_width clip_thresh Hbw Hq) in Hrun.
      discriminate Hrun.
  - apply project_gaussians_rejects_block_width.
Qed.

(** X14: a failing [project_gaussians_given_cov3d] has made no kernel
    call, and its error is one of four: the two [IndexError]s of indexing
    a covariance that is not [..., >=3, >=3], the [IndexError] of a
    [means3d] below two dimensions, and the [ValueError] of the shape
    check. *)
Theorem given_cov3d_failure_modes
    (means3d cov3d viewmat : Tensor) (fx fy cx cy : R)
    (img_height img_width block_width : Z) (clip_thresh : R) (e : exn) :
  outcome (project_gaussians_given_cov3d means3d cov3d viewmat fx fy cx cy
             img_height img_width block_width clip_thresh) = inl e ->
  calls (project_gaussians_given_cov3d means3d cov3d viewmat fx fy cx cy
           img_height img_width block_width clip_thresh) = [] /\
  (e = IndexError "too many indices for tensor" \/
   e = IndexError "index out of bounds" \/
   e = IndexError "tuple index out of range" \/
   e = ValueError "Invalid shape for means3d: " (shape means3d)).
Proof.
  intros He.
  destruct (given_cov3d_cases means3d cov3d viewmat fx fy cx cy
              img_height img_width block_width clip_thresh)
    as [(e' & Hrun & Hkind & _) |
        (cb & r & c & b & n & triu & _ & _ & _ & _ & _ & _ & Hrun)];
    rewrite Hrun in *.
  - cbn in He. injection He as <-. split; [reflexivity | exact Hkind].
  - discriminate He.
Qed.

(** X16: [project_gaussians_given_cov3d] returns exactly when the
    covariance has at least two dimensions with both trailing extents at
    least 3 and [means3d] is [..., N >= 1, 3].  Neither [block_width], nor
    the shape of [viewmat], nor the agreement of the two batch shapes is
    checked. *)
Theorem given_cov3d_returns_iff
    (means3d cov3d viewmat : Tensor) (fx fy cx cy : R)
    (img_height img_width block_width : Z) (clip_thresh : R) :
  (exists out,
     outcome (project_gaussians_given_cov3d means3d cov3d viewmat
                fx fy cx cy img_height img_width block_width clip_thresh)
     = inr out)
  <->
  ((exists cbatch r c,
      shape cov3d = cbatch ++ [r; c] /\ (3 <= r)%nat /\ (3 <= c)%nat) /\
   (exists batch n, shape means3d = batch ++ [n; 3%nat] /\ (1 <= n)%nat)).
Proof.
  destruct (given_cov3d_cases means3d cov3d viewmat fx fy cx cy
              img_height img_width block_width clip_thresh)
    as [(e' & Hrun & _ & Hwhy) |
        (cb & r & c & b & n & triu & Hc & Hr & Hc3 & Hs & Hn & _ & Hrun)];
    rewrite Hrun.
  - split.
    + intros [out Hout]. discriminate Hout.
    + intros [(cb & r & c & Hc & Hr & Hc3) (b & n & Hs & Hn)]. exfalso.
      destruct Hwhy as [Hcov | Hmeans].
      * specialize (Hcov cb r c Hc). lia.
      * specialize (Hmeans b n Hs). lia.
  - split.
    + intros _. split; [exists cb, r, c | exists b, n]; repeat split;
        assumption.
    + intros _. eexists. reflexivity.
Qed.

(** X17: whenever [project_gaussians_given_cov3d] returns, its seventh
    element is the covariance it was given, entry for entry (the lower
    triangles included, not the packed tensor), it has made exactly one
    kernel call, and the first six elements are what that call returned on
    the packed covariance. *)
Theorem given_cov3d_result
    (means3d cov3d viewmat : Tensor) (fx fy cx cy : R)
    (img_height img_width block_width : Z) (clip_thresh : R)
    (out : Projection) (last : Tensor) :
  outcome (project_gaussians_given_cov3d means3d cov3d viewmat
             fx fy cx cy img_height img_width block_width clip_thresh)
  = inr (out, last) ->
  last = cov3d /\
  exists n cov3d_triu,
    pack_cov3d_triu cov3d = ret cov3d_triu /\
    calls (project_gaussians_given_cov3d means3d cov3d viewmat
             fx fy cx cy img_height img_width block_width clip_thresh) =
    [EvProjectForward n means3d cov3d_triu viewmat fx fy cx cy
       img_height img_width block_width clip_thresh] /\
    out = project_gaussians_forward n means3d cov3d_triu viewmat
            fx fy cx cy img_height img_width block_width clip_thresh.
Proof.
  intros Hout.
  destruct (given_cov3d_cases means3d cov3d viewmat fx fy cx cy
              img_height img_width block_width clip_thresh)
    as [(e' & Hrun & _ & _) |
        (cb & r & c & b & n & triu & _ & _ & _ & _ & _ & Hp & Hrun)];
    rewrite Hrun in *.
  - discriminate Hout.
  - cbn in Hout. injection Hout as <- <-.
    split; [reflexivity |]. exists n, triu.
    split; [exact Hp |]. split; reflexivity.
Qed.

End EntryPointExtras.

Lemma given_cov3d_bad_means_example :
  project_gaussians_given_cov3d (H := Examples.backend) Examples.no_means
    (Examples.one_cov 0) (Examples.eye4 false) 1 1 16 16 32 32 16 (1 / 100) =
  raise (ValueError "Invalid shape for means3d: " [0; 3]%nat).
Proof.
  eapply given_cov3d_forward_fails.
  - apply (pack_cov3d_triu_batch (Examples.one_cov 0) [1%nat]). reflexivity.
  - apply (forward_bad_shape_raises (H := Examples.backend)
             Examples.no_means _ (Examples.eye4 false) [] 0 3).
    + reflexivity.
    + left. lia.
Qed.

Lemma given_cov3d_failure_modes_witness :
  calls (project_gaussians_given_cov3d (H := Examples.backend)
           Examples.no_means (Examples.one_cov 0) (Examples.eye4 false)
           1 1 16 16 32 32 16 (1 / 100)) = [] /\
  (ValueError "Invalid shape for means3d: " [0; 3]%nat =
     IndexError "too many indices for tensor" \/
   ValueError "Invalid shape for means3d: " [0; 3]%nat =
     IndexError "index out of bounds" \/
   ValueError "Invalid shape for means3d: " [0; 3]%nat =
     IndexError "tuple index out of range" \/
   ValueError "Invalid shape for means3d: " [0; 3]%nat =
     ValueError "Invalid shape for means3d: " (shape Examples.no_means)).
Proof.
  apply (given_cov3d_failure_modes (H := Examples.backend)
           Examples.no_means (Examples.one_cov 0) (Examples.eye4 false)
           1 1 16 16 32 32 16 (1 / 100)).
  rewrite given_cov3d_bad_means_example. reflexivity.
Defined.

Lemma given_cov3d_result_witness :
  exists out last,
    outcome (project_gaussians_given_cov3d (H := Examples.backend)
               Examples.one_mean (Examples.one_cov 7) (Examples.eye4 false)
               1 1 16 16 32 32 16 (1 / 100)) = inr (out, last) /\
    last = Examples.one_cov 7 /\
    exists n cov3d_triu,
      pack_cov3d_triu (Examples.one_cov 7) = ret cov3d_triu /\
      calls (project_gaussians_given_cov3d (H := Examples.backend)
               Examples.one_mean (Examples.one_cov 7) (Examples.eye4 false)
               1 1 16 16 32 32 16 (1 / 100)) =
      [EvProjectForward n Examples.one_mean cov3d_triu (Examples.eye4 false)
         1 1 16 16 32 32 16 (1 / 100)] /\
      out = project_gaussians_forward (Backend := Examples.backend) n
              Examples.one_mean cov3d_triu (Examples.eye4 false)
              1 1 16 16 32 32 16 (1 / 100).
Proof.
  destruct (project_gaussians_given_cov3d_run (H := Examples.backend)
              Examples.one_mean (Examples.one_cov 7) (Examples.eye4 false)
              [1%nat] [] 1 1 1 16 16 32 32 16 (1 / 100)
              eq_refl eq_refl (le_n 1))
    as (triu & xys & depths & radii & conics & comp & tiles & _ & _ & Hrun).
  exists (xys, depths, radii, conics, comp, tiles), (Examples.one_cov 7).
  split; [rewrite Hrun; reflexivity |].
  apply (given_cov3d_result (H := Examples.backend) Examples.one_mean
           (Examples.one_cov 7) (Examples.eye4 false)
           1 1 16 16 32 32 16 (1 / 100)).
  rewrite Hrun. reflexivity.
Defined.
